(** * Request/response normalisation and error classification of the
      Bedrock guardrail examples

    A shallow embedding of [BedrockGuardrailClient] (bedrock_example.py) and
    [MistralBedrockClient] (mistral_example.py): the request builder, the
    response normaliser, the error classifier and the streaming relay. *)

From Stdlib Require Import String Ascii ZArith QArith List Bool Lia.
From stdpp Require Import base option gmap strings list.

Local Open Scope string_scope.
Local Set Warnings "-register-all".

(** ** Strings

    A Python [str] is modelled as a sequence of code points below 256
    (Latin-1), one [ascii] per code point. *)

(** [s.lower()]: on code points below 256 Python lowers A-Z and the
    letters U+00C0..U+00DE (U+00D7, the multiplication sign, is no letter)
    by adding 32, and leaves the rest alone. *)
Definition lower_char (c : ascii) : ascii :=
  let n := nat_of_ascii c in
  if (((65 <=? n) && (n <=? 90)) ||
      ((192 <=? n) && (n <=? 222) && negb (n =? 215)))%nat
  then ascii_of_nat (n + 32)
  else c.

Fixpoint lower (s : string) : string :=
  match s with
  | EmptyString => EmptyString
  | String c s' => String (lower_char c) (lower s')
  end.

Fixpoint starts_with (p s : string) : bool :=
  match p, s with
  | EmptyString, _ => true
  | String _ _, EmptyString => false
  | String a p', String b s' => Ascii.eqb a b && starts_with p' s'
  end.

(** [p in s] on two strings: substring search. *)
Fixpoint str_in (p s : string) : bool :=
  starts_with p s ||
  match s with
  | EmptyString => false
  | String _ s' => str_in p s'
  end.

(** The line feed of the streaming markers. *)
Definition nl : string := String (ascii_of_nat 10) EmptyString.

(** ** Python values

    What [json.loads] returns and what the result dictionaries hold.  A
    [float] is carried as the rational it denotes: the code passes floats
    through and never computes with one. *)

Inductive json : Type :=
| JNull
| JBool (b : bool)
| JInt (z : Z)
| JFloat (q : Q)
| JStr (s : string)
| JList (l : list json)
| JObj (m : gmap string json).

(** [type(v).__name__] *)
Definition type_name (v : json) : string :=
  match v with
  | JNull => "NoneType"
  | JBool _ => "bool"
  | JInt _ => "int"
  | JFloat _ => "float"
  | JStr _ => "str"
  | JList _ => "list"
  | JObj _ => "dict"
  end.

(** A dictionary display [{k1: v1, ...}] with distinct keys. *)
Definition dict (l : list (string * json)) : gmap string json := list_to_map l.

(** ** Exceptions

    An instance of [Exception] is represented by [str(e)], the only thing
    the handlers read.  A computation of the [try] block either raises or
    returns. *)

Abbreviation exception := string (only parsing).
Abbreviation exc := (sum exception).

Definition raise {A} (e : exception) : exc A := inl e.

#[global] Instance exc_ret : MRet exc := fun _ x => inr x.
#[global] Instance exc_bind : MBind exc := fun _ _ f m =>
  match m with
  | inl e => inl e
  | inr x => f x
  end.

(** The messages are those of CPython 3.11 to 3.13. *)
Definition no_attribute (v : json) (a : string) : exception :=
  "'" +:+ type_name v +:+ "' object has no attribute '" +:+ a +:+ "'".

Definition not_subscriptable (v : json) : exception :=
  "'" +:+ type_name v +:+ "' object is not subscriptable".

(** [v.get(k, d)] *)
Definition py_get (v : json) (k : string) (d : json) : exc json :=
  match v with
  | JObj m => mret (default d (m !! k))
  | _ => raise (no_attribute v "get")
  end.

(** [v[0]]; the keys of a parsed JSON object are strings, so [0] is never
    a key of one. *)
Definition py_item0 (v : json) : exc json :=
  match v with
  | JList (x :: _) => mret x
  | JList [] => raise "list index out of range"
  | JStr (String c _) => mret (JStr (String c EmptyString))
  | JStr EmptyString => raise "string index out of range"
  | JObj _ => raise "0"
  | _ => raise (not_subscriptable v)
  end.

(** [v[k]] for a string [k]; the message of a [KeyError] is the [repr] of
    the key, which for a key of plain letters is the key in single quotes. *)
Definition py_item (v : json) (k : string) : exc json :=
  match v with
  | JObj m =>
      match m !! k with
      | Some x => mret x
      | None => raise ("'" +:+ k +:+ "'")
      end
  | JList _ => raise "list indices must be integers or slices, not str"
  | JStr _ => raise "string indices must be integers, not 'str'"
  | _ => raise (not_subscriptable v)
  end.

Definition is_str (k : string) (v : json) : bool :=
  match v with
  | JStr s => String.eqb k s
  | _ => false
  end.

(** [k in v] for a string [k]: key of a dict, element of a list,
    substring of a string. *)
Definition py_in (k : string) (v : json) : exc bool :=
  match v with
  | JObj m => mret (bool_decide (is_Some (m !! k)))
  | JList l => mret (existsb (is_str k) l)
  | JStr s => mret (str_in k s)
  | _ => raise ("argument of type '" +:+ type_name v +:+ "' is not iterable")
  end.

(** [len(v)] *)
Definition py_len (v : json) : exc Z :=
  match v with
  | JList l => mret (Z.of_nat (List.length l))
  | JStr s => mret (Z.of_nat (String.length s))
  | JObj m => mret (Z.of_nat (size m))
  | _ => raise ("object of type '" +:+ type_name v +:+ "' has no len()")
  end.

(** Truth value of an optional string ([None] and [""] are false). *)
Definition truthy (o : option string) : bool :=
  match o with
  | Some (String _ _) => true
  | _ => false
  end.

(** [a or b] on optional strings. *)
Definition py_or (a b : option string) : option string :=
  if truthy a then a else b.

Definition opt_json (o : option string) : json :=
  match o with
  | Some s => JStr s
  | None => JNull
  end.

(** ** The remote collaborator

    The keyword arguments of a remote call: strings, [None], or the
    [json.dumps] of a request body (kept as the tree it serialises). *)

Inductive param : Type :=
| PStr (s : string)
| PNone
| PDumps (body : json).

Definition opt_param (o : option string) : param :=
  match o with
  | Some s => PStr s
  | None => PNone
  end.

(** Code that may call the remote service threads the list of calls made
    so far, oldest first. *)
Definition remote (A : Type) : Type :=
  list (gmap string param) -> A * list (gmap string param).

#[global] Instance remote_ret : MRet remote := fun _ x log => (x, log).
#[global] Instance remote_bind : MBind remote := fun _ _ f m log =>
  let '(x, log') := m log in f x log'.

(** Lines 98-101 (bedrock) and 155-158 (mistral): [invoke_model] called
    with the keyword arguments [api_params], its ["body"] read and given to
    [json.loads].  The three steps together either raise or give the parsed
    body. *)
Definition call_invoke_model (service : gmap string param -> exc json)
    (api_params : gmap string param) : remote (exc json) :=
  fun log => (service api_params, (log ++ [api_params])%list).

(** [invoke_model_with_response_stream] called with [api_params]: it
    raises, or gives an event sequence.  Each item of the sequence is what
    advancing the iterator and parsing the event's bytes (line 184) give:
    an exception or the parsed chunk. *)
Definition call_invoke_stream (service : gmap string param -> exc (list (exc json)))
    (api_params : gmap string param) : remote (exc (list (exc json))) :=
  fun log => (service api_params, (log ++ [api_params])%list).

(** [isinstance(v, int)]; [bool] is a subclass of [int], with [True == 1]
    and [False == 0]. *)
Definition isinstance_int (v : json) : bool :=
  match v with
  | JInt _ | JBool _ => true
  | _ => false
  end.

Definition int_value (v : json) : Z :=
  match v with
  | JInt z => z
  | JBool true => 1
  | _ => 0
  end.

(** ** bedrock_example.py *)

Module Bedrock.

Record client : Type := {
  region : string;
  guardrail_id : option string;
  guardrail_version : option string;
  inference_profile_id : option string;
  model_id : string
}.

(** [__init__], with the process environment as a map. *)
Definition init (env : gmap string string) (region : string)
    (guardrail_id guardrail_version inference_profile_id : option string) : client :=
  {| region := region;
     guardrail_id := py_or guardrail_id (env !! "GUARDRAIL_ID");
     guardrail_version :=
       py_or guardrail_version (Some (default "1" (env !! "GUARDRAIL_VERSION")));
     inference_profile_id := py_or inference_profile_id (env !! "INFERENCE_PROFILE_ID");
     model_id := "anthropic.claude-sonnet-4-20250514-v1:0" |}.

Definition request_body (prompt : string) (max_tokens : json) (temperature top_p : Q) : json :=
  JObj (dict [
    ("anthropic_version", JStr "bedrock-2023-05-31");
    ("max_tokens", max_tokens);
    ("temperature", JFloat temperature);
    ("top_p", JFloat top_p);
    ("messages", JList [JObj (dict [("role", JStr "user"); ("content", JStr prompt)])])
  ]).

(** Lines 84-94 (and 166-176 of the streaming variant). *)
Definition api_params (self : client) (prompt : string) (max_tokens : json)
    (temperature top_p : Q) : gmap string param :=
  let api_params : gmap string param := list_to_map [
    ("modelId", if truthy (inference_profile_id self)
                then opt_param (inference_profile_id self)
                else PStr (model_id self));
    ("body", PDumps (request_body prompt max_tokens temperature top_p));
    ("contentType", PStr "application/json");
    ("accept", PStr "application/json")
  ] in
  if truthy (guardrail_id self) then
    <["guardrailVersion" := opt_param (guardrail_version self)]>
      (<["guardrailIdentifier" := opt_param (guardrail_id self)]> api_params)
  else api_params.

(** Lines 103-113: the response normaliser. *)
Definition normalize (self : client) (response_body : json) : exc (gmap string json) :=
  content ← py_get response_body "content" (JList [JObj ∅]);
  first ← py_item0 content;
  text_response ← py_get first "text" (JStr "");
  stop_reason ← py_get response_body "stop_reason" JNull;
  usage ← py_get response_body "usage" JNull;
  model ← py_get response_body "model" JNull;
  mret (dict [
    ("success", JBool true);
    ("response", text_response);
    ("stop_reason", stop_reason);
    ("usage", usage);
    ("model_id", model);
    ("guardrail_applied", JBool (bool_decide (is_Some (guardrail_id self))))
  ]).

(** Lines 115-130: the error classifier. *)
Definition handle_exception (error_message : string) : gmap string json :=
  if str_in "GuardrailIntervened" error_message || str_in "guardrail" (lower error_message)
  then dict [
    ("success", JBool false);
    ("error", JStr "Guardrail intervention");
    ("message", JStr "The request was blocked by guardrails. Please rephrase your question.");
    ("details", JStr error_message)
  ]
  else dict [
    ("success", JBool false);
    ("error", JStr "API error");
    ("message", JStr error_message)
  ].

Definition invoke_model (self : client) (service : gmap string param -> exc json)
    (prompt : string) (max_tokens : json) (temperature top_p : Q)
    : remote (gmap string json) :=
  response ← call_invoke_model service (api_params self prompt max_tokens temperature top_p);
  mret (match response ≫= normalize self with
        | inr result => result
        | inl e => handle_exception e
        end).

(** Lines 186-189: what one parsed chunk makes the generator yield. *)
Definition relay_chunk (chunk : json) : exc (list json) :=
  ty ← py_get chunk "type" JNull;
  if is_str "content_block_delta" ty then
    delta ← py_get chunk "delta" (JObj ∅);
    dty ← py_get delta "type" JNull;
    if is_str "text_delta" dty then
      text ← py_get delta "text" (JStr "");
      mret [text]
    else mret []
  else mret [].

(** The [for] loop: the values yielded, and the exception that ended the
    loop if one did. *)
Fixpoint relay (events : list (exc json)) : list json * option exception :=
  match events with
  | [] => ([], None)
  | event :: rest =>
      match event ≫= relay_chunk with
      | inl e => ([], Some e)
      | inr out => let '(outs, r) := relay rest in ((out ++ outs)%list, r)
      end
  end.

(** Lines 191-196. *)
Definition stream_marker (error_message : string) : json :=
  if str_in "GuardrailIntervened" error_message || str_in "guardrail" (lower error_message)
  then JStr (nl +:+ "[ERROR: Request blocked by guardrails. Please rephrase your question.]" +:+ nl)
  else JStr (nl +:+ "[ERROR: " +:+ error_message +:+ "]" +:+ nl).

(** The sequence produced by the generator when it is run to its end. *)
Definition invoke_model_streaming (self : client)
    (service : gmap string param -> exc (list (exc json)))
    (prompt : string) (max_tokens : json) (temperature top_p : Q)
    : remote (list json) :=
  response ← call_invoke_stream service (api_params self prompt max_tokens temperature top_p);
  mret (match response with
        | inl e => [stream_marker e]
        | inr events =>
            let '(outs, r) := relay events in
            match r with
            | Some e => (outs ++ [stream_marker e])%list
            | None => outs
            end
        end).

End Bedrock.

(** ** mistral_example.py *)

Module Mistral.

Record client : Type := {
  region : string;
  guardrail_id : option string;
  guardrail_version : option string;
  model_id : string
}.

Definition request_body (prompt : string) (max_tokens : json) (temperature top_p : Q) : json :=
  JObj (dict [
    ("prompt", JStr prompt);
    ("max_tokens", max_tokens);
    ("temperature", JFloat temperature);
    ("top_p", JFloat top_p)
  ]).

(** Lines 140-151. *)
Definition api_params (self : client) (prompt : string) (max_tokens : json)
    (temperature top_p : Q) : gmap string param :=
  let api_params : gmap string param := list_to_map [
    ("modelId", PStr (model_id self));
    ("body", PDumps (request_body prompt max_tokens temperature top_p));
    ("contentType", PStr "application/json");
    ("accept", PStr "application/json")
  ] in
  if truthy (guardrail_id self) then
    let api_params := <["guardrailIdentifier" := opt_param (guardrail_id self)]> api_params in
    if truthy (guardrail_version self) then
      <["guardrailVersion" := opt_param (guardrail_version self)]> api_params
    else api_params
  else api_params.

(** Lines 160-165. *)
Definition extract_text (response_body : json) : exc json :=
  has_outputs ← py_in "outputs" response_body;
  nonempty ← (if has_outputs : bool then
                outputs ← py_item response_body "outputs";
                n ← py_len outputs;
                mret (0 <? n)%Z
              else mret false);
  if nonempty : bool then
    outputs ← py_item response_body "outputs";
    first ← py_item0 outputs;
    py_get first "text" (JStr "")
  else
    has_completion ← py_in "completion" response_body;
    if has_completion : bool then py_get response_body "completion" (JStr "")
    else mret (JStr "").

(** Lines 160-174: the response normaliser. *)
Definition normalize (self : client) (response_body : json) : exc (gmap string json) :=
  text_response ← extract_text response_body;
  stop_reason ← py_get response_body "stop_reason" JNull;
  mret (dict [
    ("success", JBool true);
    ("response", text_response);
    ("stop_reason", stop_reason);
    ("model_id", JStr (model_id self));
    ("guardrail_applied", JBool (bool_decide (is_Some (guardrail_id self))));
    ("raw_response", response_body)
  ]).

(** Lines 176-192: the error classifier. *)
Definition handle_exception (error_message : string) : gmap string json :=
  if str_in "GuardrailIntervened" error_message || str_in "ValidationException" error_message
  then dict [
    ("success", JBool false);
    ("error", JStr "Guardrail intervention or validation failed");
    ("message", JStr "The request was blocked by guardrails or validation failed.");
    ("details", JStr error_message)
  ]
  else dict [
    ("success", JBool false);
    ("error", JStr "API error");
    ("message", JStr ("AWS CLI command failed: " +:+ error_message));
    ("details", JStr error_message)
  ].

(** Lines 126-129. *)
Definition validation_failure : gmap string json :=
  dict [
    ("success", JBool false);
    ("error", JStr "max_tokens must be a positive integer")
  ].

Definition invoke_model (self : client) (service : gmap string param -> exc json)
    (prompt : string) (max_tokens : json) (temperature top_p : Q)
    : remote (gmap string json) :=
  if negb (isinstance_int max_tokens) || (int_value max_tokens <=? 0)%Z then
    mret validation_failure
  else
    response ← call_invoke_model service (api_params self prompt max_tokens temperature top_p);
    mret (match response ≫= normalize self with
          | inr result => result
          | inl e => handle_exception e
          end).

End Mistral.

(** ** What the specification talks about *)

(** [p] occurs in [s]. *)
Definition contains (p s : string) : Prop :=
  exists pre post, s = pre +:+ p +:+ post.

(** The capital of an ASCII small letter. *)
Definition upper_ascii (a : ascii) : ascii :=
  ascii_of_nat (nat_of_ascii a - 32).

(** [t] reads as the small-letter word [p] when the case of its letters is
    ignored. *)
Inductive eq_nocase : string -> string -> Prop :=
| eq_nocase_nil : eq_nocase EmptyString EmptyString
| eq_nocase_cons a b p t :
    b = a \/ b = upper_ascii a ->
    eq_nocase p t ->
    eq_nocase (String a p) (String b t).

(** [p] occurs in [s] in some mix of capital and small letters. *)
Definition contains_nocase (p s : string) : Prop :=
  exists pre t post, s = pre +:+ t +:+ post /\ eq_nocase p t.

Fixpoint small_letters (p : string) : bool :=
  match p with
  | EmptyString => true
  | String a p' =>
      (97 <=? nat_of_ascii a)%nat && (nat_of_ascii a <=? 122)%nat && small_letters p'
  end.

(** The two outcome kinds of the error classifier, read off the ["error"]
    label of a result. *)
Inductive error_kind : Type :=
| GuardrailIntervention
| ApiError.

Definition error_kind_of (result : gmap string json) : option error_kind :=
  match result !! "error" with
  | Some (JStr "API error") => Some ApiError
  | Some (JStr "Guardrail intervention") => Some GuardrailIntervention
  | Some (JStr "Guardrail intervention or validation failed") => Some GuardrailIntervention
  | _ => None
  end.

(** The ["success"] flag of a result. *)
Definition success_of (result : gmap string json) : option bool :=
  match result !! "success" with
  | Some (JBool b) => Some b
  | _ => None
  end.

(** [text_delta chunk t]: the parsed event [chunk] is a content-delta event
    that carries the text fragment [t] (the empty string when its delta
    names no text). *)
Inductive text_delta : json -> json -> Prop :=
| text_delta_intro (m d : gmap string json) :
    m !! "type" = Some (JStr "content_block_delta") ->
    m !! "delta" = Some (JObj d) ->
    d !! "type" = Some (JStr "text_delta") ->
    text_delta (JObj m) (default (JStr "") (d !! "text")).

(** [fragments chunks ts]: [ts] are the text fragments of the content-delta
    events among [chunks], in the order of the events. *)
Inductive fragments : list json -> list json -> Prop :=
| fragments_nil : fragments [] []
| fragments_delta chunk t chunks ts :
    text_delta chunk t -> fragments chunks ts -> fragments (chunk :: chunks) (t :: ts)
| fragments_skip chunk chunks ts :
    (forall t, ~ text_delta chunk t) -> fragments chunks ts -> fragments (chunk :: chunks) ts.

(** The content-delta event of the streaming API that carries [text]. *)
Definition delta_event (text : string) : json :=
  JObj (dict [
    ("type", JStr "content_block_delta");
    ("index", JInt 0);
    ("delta", JObj (dict [("type", JStr "text_delta"); ("text", JStr text)]))
  ]).

(** ** The scripts' console and entry points

    Standard output is the sequence of pieces written so far: literal text,
    single characters above code point 255 (the glyphs of the status
    lines), and [str(v)] of a value. *)

Inductive piece : Type :=
| Lit (s : string)
| Chr (code_point : N)
| Str (v : json).

(** How a statement of a script ends: it returns, raises an [Exception],
    or leaves the process through [sys.exit]. *)
Inductive outcome (A : Type) : Type :=
| Returned (x : A)
| Raised (e : exception)
| Exited (status : Z).

Arguments Returned {A} x.
Arguments Raised {A} e.
Arguments Exited {A} status.

Record world : Type := {
  stdout : list piece;
  calls : list (gmap string param)
}.

Definition io (A : Type) : Type := world -> outcome A * world.

#[global] Instance io_ret : MRet io := fun _ x w => (Returned x, w).
#[global] Instance io_bind : MBind io := fun _ _ f m w =>
  match m w with
  | (Returned x, w') => f x w'
  | (Raised e, w') => (Raised e, w')
  | (Exited status, w') => (Exited status, w')
  end.

(** [print(...)]: the pieces and a line feed. *)
Definition print (line : list piece) : io unit :=
  fun w => (Returned tt, {| stdout := stdout w ++ line ++ [Lit nl]; calls := calls w |}).

(** [print(..., end="", flush=True)] *)
Definition print_no_end (line : list piece) : io unit :=
  fun w => (Returned tt, {| stdout := stdout w ++ line; calls := calls w |}).

Definition sys_exit {A} (status : Z) : io A :=
  fun w => (Exited status, w).

Definition lift_remote {A} (m : remote A) : io A :=
  fun w => let '(x, log) := m (calls w) in
           (Returned x, {| stdout := stdout w; calls := log |}).

Definition lift_exc {A} (m : exc A) : io A :=
  fun w => (match m with inl e => Raised e | inr x => Returned x end, w).

(** [bool(v)] *)
Definition py_bool (v : json) : bool :=
  match v with
  | JNull => false
  | JBool b => b
  | JInt z => negb (z =? 0)%Z
  | JFloat q => negb (Qnum q =? 0)%Z
  | JStr s => negb (String.eqb s "")
  | JList l => negb (Nat.eqb (List.length l) 0)
  | JObj m => negb (Nat.eqb (size m) 0)
  end.

(** [d.get(k)] on a result dictionary. *)
Definition dict_get (d : gmap string json) (k : string) : json :=
  default JNull (d !! k).

(** ["=" * 80] and ["-" * 80] *)
Definition rule (c : ascii) : string := string_of_list_ascii (repeat c 80).

Module MistralScript.

(** [Colors] *)
Definition esc : string := String (ascii_of_nat 27) EmptyString.
Definition RED : string := esc +:+ "[0;31m".
Definition GREEN : string := esc +:+ "[0;32m".
Definition YELLOW : string := esc +:+ "[1;33m".
Definition BLUE : string := esc +:+ "[0;34m".
Definition NC : string := esc +:+ "[0m".

Definition print_header (text : string) : io unit :=
  print [];;
  print [Lit (rule "=")];;
  print [Lit text];;
  print [Lit (rule "=")];;
  print [].

Definition print_subheader (text : string) : io unit :=
  print [];;
  print [Lit (rule "-")];;
  print [Lit text];;
  print [Lit (rule "-")].

Definition print_info (text : string) : io unit :=
  print [Lit BLUE; Chr 8505; Lit NC; Lit " "; Lit text].

Definition print_success (text : string) : io unit :=
  print [Lit GREEN; Chr 10003; Lit NC; Lit " "; Lit text].

Definition print_warning (text : string) : io unit :=
  print [Lit YELLOW; Chr 9888; Lit NC; Lit " "; Lit text].

Definition print_error (text : string) : io unit :=
  print [Lit RED; Chr 10007; Lit NC; Lit " "; Lit text].

(** [MistralBedrockClient.__init__] *)
Definition init (region : string) (guardrail_id guardrail_version : option string)
    (model_id : string) : Mistral.client :=
  {| Mistral.region := region;
     Mistral.guardrail_id := guardrail_id;
     Mistral.guardrail_version := guardrail_version;
     Mistral.model_id := model_id |}.

(** Lines 194-199. *)
Definition display_response (result : gmap string json) : io unit :=
  if py_bool (dict_get result "success") && py_bool (dict_get result "response") then
    response ← lift_exc (py_item (JObj result) "response");
    print [Str response]
  else if negb (py_bool (dict_get result "success")) then
    print_error "No response or error occurred"
  else mret tt.

(** Lines 201-212. *)
Definition display_metadata (self : Mistral.client) (result : gmap string json) : io unit :=
  if py_bool (dict_get result "success") then
    print [];;
    print [Lit "Metadata:"];;
    (if py_bool (dict_get result "stop_reason") then
       stop_reason ← lift_exc (py_item (JObj result) "stop_reason");
       print [Lit "  - Stop Reason: "; Str stop_reason]
     else mret tt);;
    model ← lift_exc (py_item (JObj result) "model_id");
    print [Lit "  - Model: "; Str model];;
    let guardrail_status :=
      if py_bool (dict_get result "guardrail_applied") then "Yes" else "No" in
    let guardrail_status :=
      if py_bool (dict_get result "guardrail_applied") && truthy (Mistral.guardrail_id self)
      then "Yes (" +:+ default "" (Mistral.guardrail_id self) +:+ ")"
      else guardrail_status in
    print [Lit "  - Guardrail Applied: "; Lit guardrail_status]
  else mret tt.

(** Lines 215-222; [sts region] is what creating the STS client for the
    region and calling [get_caller_identity] give. *)
Definition check_aws_credentials (sts : string -> exc json) (region : string) : bool :=
  match sts region with
  | inr _ => true
  | inl _ => false
  end.

(** One of the four examples of [main]: the invocation and the report of
    its result (lines 271-278, 289-296, 307-314, 325-332). *)
Definition run_example (client : Mistral.client) (service : gmap string param -> exc json)
    (prompt : string) (max_tokens : json) (temperature top_p : Q)
    (on_success on_failure : string) : io unit :=
  result ← lift_remote (Mistral.invoke_model client service prompt max_tokens temperature top_p);
  success ← lift_exc (py_item (JObj result) "success");
  if py_bool success then
    print_success on_success;;
    display_response result;;
    display_metadata client result
  else
    print_error on_failure.

Definition prompt1 : string := "What is the capital of France?".
Definition prompt2 : string :=
  "My email is john.doe@example.com and my phone is (555) 123-4567. Can you help me?".
Definition prompt3 : string := "Write a short poem about technology and innovation.".
Definition prompt4 : string := "Explain the concept of machine learning in simple terms.".

(** Lines 225-346, with the environment (after [load_dotenv]) as a map;
    creating the runtime client is taken to succeed. *)
Definition main (env : gmap string string) (sts : string -> exc json)
    (service : gmap string param -> exc json) : io unit :=
  let aws_region := default "eu-west-1" (env !! "AWS_REGION") in
  let guardrail_id := env !! "GUARDRAIL_ID" in
  let guardrail_version := default "1" (env !! "GUARDRAIL_VERSION") in
  let model_id := default "mistral.mistral-large-3-675b-instruct" (env !! "MODEL_ID") in
  print_header "AWS Bedrock with Guardrails - Mistral Example";;
  print_info "Configuration:";;
  print_success ("Region: " +:+ aws_region);;
  print_success ("Model: " +:+ model_id);;
  (if truthy guardrail_id then
     print_success ("Guardrail ID: " +:+ default "" guardrail_id);;
     print_success ("Guardrail Version: " +:+ guardrail_version)
   else
     print_warning "No guardrail configured. Set GUARDRAIL_ID in .env file");;
  (if negb (check_aws_credentials sts aws_region) then
     print_error "AWS credentials not configured or invalid. Run 'aws configure' first.";;
     sys_exit 1
   else mret tt);;
  print_success "AWS credentials validated";;
  let client := init aws_region guardrail_id (Some guardrail_version) model_id in
  print_subheader "Example 1: Safe Query";;
  print_info ("Prompt: " +:+ prompt1);;
  print [];;
  run_example client service prompt1 (JInt 1000) 0.7 0.9
    "Response:" "Request failed";;
  print_subheader "Example 2: Query with PII (should be blocked/anonymized)";;
  print_info ("Prompt: " +:+ prompt2);;
  print [];;
  run_example client service prompt2 (JInt 1000) 0.7 0.9
    "Response (PII may be filtered):"
    "Request was blocked by guardrails (expected behavior for PII)";;
  print_subheader "Example 3: Creative Query";;
  print_info ("Prompt: " +:+ prompt3);;
  print [];;
  run_example client service prompt3 (JInt 1500) 0.8 0.95
    "Response:" "Request failed";;
  print_subheader "Example 4: Technical Query";;
  print_info ("Prompt: " +:+ prompt4);;
  print [];;
  run_example client service prompt4 (JInt 1000) 0.5 0.9
    "Response:" "Request failed";;
  print_header "Examples Completed!";;
  print_info "Notes:";;
  print [Lit "  "; Chr 8226; Lit " Mistral Large 3 is a powerful 675B parameter model"];;
  print [Lit "  "; Chr 8226; Lit " Guardrails help ensure safe and appropriate responses"];;
  print [Lit "  "; Chr 8226;
         Lit " Adjust temperature (0.0-1.0) for more creative or focused responses"];;
  print [Lit "  "; Chr 8226; Lit " Check AWS Bedrock documentation for more model options"];;
  print [];;
  print_success "Script execution completed successfully!";;
  print [].

End MistralScript.

Module BedrockScript.

Definition prompt1 : string := "What is the capital of France?".
Definition prompt2 : string :=
  "My email is john.doe@example.com and my phone is 555-1234. Can you help me?".
Definition prompt3 : string := "Write a short poem about technology.".

(** Lines 234-245. *)
Definition example1 (client : Bedrock.client) (service : gmap string param -> exc json)
    : io unit :=
  result1 ← lift_remote (Bedrock.invoke_model client service prompt1 (JInt 2000) 0.7 0.9);
  success ← lift_exc (py_item (JObj result1) "success");
  if py_bool success then
    response ← lift_exc (py_item (JObj result1) "response");
    print [Lit "Response: "; Str response];;
    print [Lit (nl +:+ "Metadata:")];;
    stop_reason ← lift_exc (py_item (JObj result1) "stop_reason");
    print [Lit "  - Stop Reason: "; Str stop_reason];;
    applied ← lift_exc (py_item (JObj result1) "guardrail_applied");
    print [Lit "  - Guardrail Applied: "; Str applied];;
    if py_bool (dict_get result1 "usage") then
      usage ← lift_exc (py_item (JObj result1) "usage");
      input_tokens ← lift_exc (py_get usage "input_tokens" JNull);
      print [Lit "  - Input Tokens: "; Str input_tokens];;
      usage ← lift_exc (py_item (JObj result1) "usage");
      output_tokens ← lift_exc (py_get usage "output_tokens" JNull);
      print [Lit "  - Output Tokens: "; Str output_tokens]
    else mret tt
  else
    message ← lift_exc (py_item (JObj result1) "message");
    print [Lit "Error: "; Str message].

(** Lines 257-264. *)
Definition example2 (client : Bedrock.client) (service : gmap string param -> exc json)
    : io unit :=
  result2 ← lift_remote (Bedrock.invoke_model client service prompt2 (JInt 2000) 0.7 0.9);
  success ← lift_exc (py_item (JObj result2) "success");
  if py_bool success then
    response ← lift_exc (py_item (JObj result2) "response");
    print [Lit "Response: "; Str response]
  else
    message ← lift_exc (py_item (JObj result2) "message");
    print [Lit "Blocked: "; Str message];;
    if py_bool (dict_get result2 "details") then
      details ← lift_exc (py_item (JObj result2) "details");
      print [Lit "Details: "; Str details]
    else mret tt.

Fixpoint print_chunks (chunks : list json) : io unit :=
  match chunks with
  | [] => mret tt
  | chunk :: rest => print_no_end [Str chunk];; print_chunks rest
  end.

(** Lines 277-278. *)
Definition example3 (client : Bedrock.client)
    (stream_service : gmap string param -> exc (list (exc json))) : io unit :=
  chunks ← lift_remote
    (Bedrock.invoke_model_streaming client stream_service prompt3 (JInt 2000) 0.7 0.9);
  print_chunks chunks.

(** Lines 199-284, with the environment (after [load_dotenv]) as a map;
    creating the runtime client is taken to succeed. *)
Definition main (env : gmap string string) (service : gmap string param -> exc json)
    (stream_service : gmap string param -> exc (list (exc json))) : io unit :=
  print [Lit (rule "=")];;
  print [Lit "AWS Bedrock with Guardrails - Example Usage"];;
  print [Lit (rule "=")];;
  print [];;
  let client := Bedrock.init env "eu-west-1" None None None in
  (if truthy (Bedrock.guardrail_id client) then
     print [Chr 10003; Lit " Guardrail ID: "; Str (opt_json (Bedrock.guardrail_id client))];;
     print [Chr 10003; Lit " Guardrail Version: ";
            Str (opt_json (Bedrock.guardrail_version client))]
   else
     print [Chr 9888; Lit " Warning: No guardrail configured. Set GUARDRAIL_ID in .env file"]);;
  (if truthy (Bedrock.inference_profile_id client) then
     print [Chr 10003; Lit " Custom Inference Profile: ";
            Str (opt_json (Bedrock.inference_profile_id client))]
   else
     print [Chr 10003; Lit " Using default model: "; Lit (Bedrock.model_id client)]);;
  print [];;
  print [Lit (rule "-")];;
  print [Lit (nl +:+ "Example 1: Safe Query")];;
  print [Lit (rule "-")];;
  print [Lit ("Prompt: " +:+ prompt1)];;
  print [];;
  example1 client service;;
  print [];;
  print [Lit (rule "-")];;
  print [Lit (nl +:+ "Example 2: Query with PII (should be blocked/anonymized)")];;
  print [Lit (rule "-")];;
  print [Lit ("Prompt: " +:+ prompt2)];;
  print [];;
  example2 client service;;
  print [];;
  print [Lit (rule "-")];;
  print [Lit (nl +:+ "Example 3: Streaming Response")];;
  print [Lit (rule "-")];;
  print [Lit ("Prompt: " +:+ prompt3)];;
  print [Lit (nl +:+ "Streaming Response:")];;
  print [];;
  example3 client stream_service;;
  print [];;
  print [];;
  print [Lit (rule "=")];;
  print [Lit "Examples completed!"];;
  print [Lit (rule "=")].

End BedrockScript.

(** ** Effects of a script statement *)

(** [returns_calling m ps]: from any state, [m] returns (it neither raises
    nor exits) and the remote calls it makes are exactly [ps], in order. *)
Definition returns_calling {A} (m : io A) (ps : list (gmap string param)) : Prop :=
  forall w, exists x w', m w = (Returned x, w') /\ calls w' = (calls w ++ ps)%list.

(** [returns_with m P ps]: likewise, and the value returned satisfies [P]. *)
Definition returns_with {A} (m : io A) (P : A -> Prop)
    (ps : list (gmap string param)) : Prop :=
  forall w, exists x w', m w = (Returned x, w') /\ P x /\ calls w' = (calls w ++ ps)%list.

(** [prints m out]: from any state, [m] returns, calls nothing and writes
    exactly [out]. *)
Definition prints (m : io unit) (out : list piece) : Prop :=
  forall w, m w = (Returned tt, {| stdout := stdout w ++ out; calls := calls w |}).

(** [raises_calling m e ps]: from any state, [m] raises [e] after making
    exactly the remote calls [ps]. *)
Definition raises_calling {A} (m : io A) (e : exception)
    (ps : list (gmap string param)) : Prop :=
  forall w, exists w', m w = (Raised e, w') /\ calls w' = (calls w ++ ps)%list.

(** [exits_calling m status ps]: likewise for leaving through [sys.exit]. *)
Definition exits_calling {A} (m : io A) (status : Z)
    (ps : list (gmap string param)) : Prop :=
  forall w, exists w', m w = (Exited status, w') /\ calls w' = (calls w ++ ps)%list.

(** ** Substring search *)

Section Strings.

Implicit Types p s t pre post : string.

#[local] Arguments lower_char : simpl never.

Lemma starts_with_spec p s : starts_with p s = true <-> exists post, s = p +:+ post.
Proof.
  revert s. induction p as [|a p IH]; intros s; simpl.
  - split; [intros _; now exists s | reflexivity].
  - destruct s as [|b s].
    + split; [discriminate | intros [post H]; discriminate].
    + rewrite andb_true_iff, Ascii.eqb_eq, IH. split.
      * intros [-> [post ->]]. now exists post.
      * intros [post H]. injection H as -> ->. split; [reflexivity | now exists post].
Qed.

Lemma str_in_unfold p s :
  str_in p s =
  starts_with p s || match s with EmptyString => false | String _ s' => str_in p s' end.
Proof. destruct s; reflexivity. Qed.

Lemma str_in_spec p s : str_in p s = true <-> contains p s.
Proof.
  split.
  - induction s as [|c s IH]; rewrite str_in_unfold, orb_true_iff.
    + intros [H | H]; [| discriminate].
      apply starts_with_spec in H as [post ->]. now exists EmptyString, post.
    + intros [H | H].
      * apply starts_with_spec in H as [post ->]. now exists EmptyString, post.
      * destruct (IH H) as (pre & post & ->). now exists (String c pre), post.
  - intros (pre & post & ->). induction pre as [|c pre IH].
    + rewrite str_in_unfold, orb_true_iff. left. apply starts_with_spec. now exists post.
    + simpl String.append. rewrite str_in_unfold, orb_true_iff. now right.
Qed.

Lemma str_in_false p s : str_in p s = false <-> ~ contains p s.
Proof. rewrite <- str_in_spec. destruct (str_in p s); split; congruence. Qed.

Lemma lower_app s t : lower (s +:+ t) = lower s +:+ lower t.
Proof.
  induction s as [|c s IH]; simpl; [reflexivity | now rewrite IH].
Qed.

Lemma lower_split s a b :
  lower s = a +:+ b -> exists x y, s = x +:+ y /\ lower x = a /\ lower y = b.
Proof.
  revert s. induction a as [|c a IH]; intros s H.
  - now exists EmptyString, s.
  - destruct s as [|d s]; [discriminate |].
    simpl in H. injection H as Hc H.
    destruct (IH _ H) as (x & y & -> & Hx & Hy).
    exists (String d x), y. simpl. now rewrite Hc, Hx.
Qed.

Lemma lower_char_small a b :
  (97 <= nat_of_ascii a <= 122)%nat ->
  lower_char b = a <-> b = a \/ b = upper_ascii a.
Proof.
  intros Ha. unfold lower_char, upper_ascii.
  pose proof (nat_ascii_bounded b) as Hb.
  split.
  - destruct (_ || _)%bool eqn:E; [| now left].
    intros <-. right.
    apply orb_true_iff in E.
    assert (nat_of_ascii b + 32 < 256)%nat as Hlt.
    { destruct E as [E | E]; repeat (apply andb_true_iff in E as [E ?]);
        repeat match goal with H : (_ <=? _)%nat = true |- _ => apply Nat.leb_le in H end; lia. }
    rewrite (nat_ascii_embedding _ Hlt).
    replace (nat_of_ascii b + 32 - 32)%nat with (nat_of_ascii b) by lia.
    now rewrite ascii_nat_embedding.
  - intros [-> | ->].
    + destruct (_ || _)%bool eqn:E; [| reflexivity]. exfalso.
      apply orb_true_iff in E.
      destruct E as [E | E]; repeat (apply andb_true_iff in E as [E ?]);
        repeat match goal with H : (_ <=? _)%nat = true |- _ => apply Nat.leb_le in H end; lia.
    + assert (nat_of_ascii a - 32 < 256)%nat as Hlt by lia.
      rewrite (nat_ascii_embedding _ Hlt).
      replace (nat_of_ascii a - 32 + 32)%nat with (nat_of_ascii a) by lia.
      rewrite ascii_nat_embedding.
      destruct (_ || _)%bool eqn:E; [reflexivity | exfalso].
      apply orb_false_iff in E as [E _].
      apply andb_false_iff in E as [E | E]; apply Nat.leb_gt in E; lia.
Qed.

Lemma eq_nocase_lower p t : small_letters p = true -> eq_nocase p t <-> lower t = p.
Proof.
  revert t. induction p as [|a p IH]; intros t Hp.
  - split.
    + intros H. inversion H. reflexivity.
    + destruct t; [constructor | discriminate].
  - cbn [small_letters] in Hp. apply andb_true_iff in Hp as [Ha Hp].
    apply andb_true_iff in Ha as [Ha1 Ha2].
    apply Nat.leb_le in Ha1, Ha2.
    split.
    + intros H. inversion H as [|a' b p' t' Hab Hpt]; subst. cbn [lower].
      f_equal; [apply lower_char_small; auto | now apply IH].
    + destruct t as [|b t]; [discriminate |]. cbn [lower]. intros H. injection H as Hb Ht.
      constructor; [apply lower_char_small in Hb; auto | now apply IH].
Qed.

(** A search in the lowered message finds the word whatever its case. *)
Lemma str_in_lower p s :
  small_letters p = true -> str_in p (lower s) = true <-> contains_nocase p s.
Proof.
  intros Hp. rewrite str_in_spec. split.
  - intros (pre & post & H).
    apply lower_split in H as (x & y & -> & Hx & H).
    apply lower_split in H as (t & z & -> & Ht & Hz).
    exists x, t, z. split; [reflexivity | now apply eq_nocase_lower].
  - intros (pre & t & post & -> & H). apply eq_nocase_lower in H; [| assumption].
    exists (lower pre), (lower post). now rewrite !lower_app, H.
Qed.

End Strings.

(** ** The error classifier *)

Lemma is_str_spec k v : is_str k v = true <-> v = JStr k.
Proof.
  destruct v; simpl; try (split; [discriminate | intros [=]]).
  rewrite String.eqb_eq. split; [now intros -> | now intros [= ->]].
Qed.

Lemma bedrock_guardrail_test error_message :
  str_in "GuardrailIntervened" error_message || str_in "guardrail" (lower error_message) = true <->
  contains "GuardrailIntervened" error_message \/ contains_nocase "guardrail" error_message.
Proof. now rewrite orb_true_iff, str_in_spec, str_in_lower. Qed.

Lemma mistral_guardrail_test error_message :
  str_in "GuardrailIntervened" error_message || str_in "ValidationException" error_message = true <->
  contains "GuardrailIntervened" error_message \/ contains "ValidationException" error_message.
Proof. now rewrite orb_true_iff, !str_in_spec. Qed.

(** C1, as the code has it.  On the Anthropic path a message is classified
    GuardrailIntervention exactly when it contains "GuardrailIntervened" or,
    in any mix of cases, "guardrail", and ApiError otherwise.  On the Mistral
    path it is classified GuardrailIntervention exactly when it contains
    "GuardrailIntervened" or "ValidationException", and ApiError otherwise:
    that path makes no case-insensitive search for "guardrail". *)
Theorem error_classifier_by_path (error_message : string) :
  (error_kind_of (Bedrock.handle_exception error_message) = Some GuardrailIntervention <->
     contains "GuardrailIntervened" error_message \/
     contains_nocase "guardrail" error_message) /\
  (error_kind_of (Bedrock.handle_exception error_message) = Some ApiError <->
     ~ (contains "GuardrailIntervened" error_message \/
        contains_nocase "guardrail" error_message)) /\
  (error_kind_of (Mistral.handle_exception error_message) = Some GuardrailIntervention <->
     contains "GuardrailIntervened" error_message \/
     contains "ValidationException" error_message) /\
  (error_kind_of (Mistral.handle_exception error_message) = Some ApiError <->
     ~ (contains "GuardrailIntervened" error_message \/
        contains "ValidationException" error_message)).
Proof.
  rewrite <- bedrock_guardrail_test, <- mistral_guardrail_test.
  unfold Bedrock.handle_exception, Mistral.handle_exception.
  destruct (_ || str_in "guardrail" _), (_ || str_in "ValidationException" _);
    repeat split; intros; try reflexivity; try discriminate; try congruence;
    try (intros ?; discriminate).
Qed.

(** C1 as stated fails on the Mistral path: a message that names a guardrail
    in small letters only is classified ApiError there. *)
Lemma mistral_ignores_lowercase_guardrail :
  contains_nocase "guardrail" "Request blocked by guardrail policy" /\
  error_kind_of (Mistral.handle_exception "Request blocked by guardrail policy")
    = Some ApiError /\
  error_kind_of (Mistral.handle_exception "Request blocked by guardrail policy")
    <> Some GuardrailIntervention.
Proof.
  split; [| split].
  - apply str_in_lower; reflexivity.
  - reflexivity.
  - discriminate.
Qed.

(** ** The request builder *)

Section RequestBuilder.

Variables (prompt : string) (max_tokens : json) (temperature top_p : Q).

Lemma truthy_opt_param o : truthy o = true -> exists s, o = Some s /\ opt_param o = PStr s.
Proof. destruct o as [[|c s]|]; try discriminate. intros _. now eexists. Qed.

Lemma bedrock_guardrail_keys (self : Bedrock.client) :
  let api_params := Bedrock.api_params self prompt max_tokens temperature top_p in
  api_params !! "guardrailIdentifier" =
    (if truthy (Bedrock.guardrail_id self)
     then Some (opt_param (Bedrock.guardrail_id self)) else None) /\
  api_params !! "guardrailVersion" =
    (if truthy (Bedrock.guardrail_id self)
     then Some (opt_param (Bedrock.guardrail_version self)) else None).
Proof.
  unfold Bedrock.api_params. destruct (truthy (Bedrock.guardrail_id self)); split; reflexivity.
Qed.

Lemma mistral_guardrail_keys (self : Mistral.client) :
  let api_params := Mistral.api_params self prompt max_tokens temperature top_p in
  api_params !! "guardrailIdentifier" =
    (if truthy (Mistral.guardrail_id self)
     then Some (opt_param (Mistral.guardrail_id self)) else None) /\
  api_params !! "guardrailVersion" =
    (if truthy (Mistral.guardrail_id self) && truthy (Mistral.guardrail_version self)
     then Some (opt_param (Mistral.guardrail_version self)) else None).
Proof.
  unfold Mistral.api_params.
  destruct (truthy (Mistral.guardrail_id self)), (truthy (Mistral.guardrail_version self));
    split; reflexivity.
Qed.

(** C2, as the code has it.  A guardrail identifier is configured when it is
    a non-empty string.  The Anthropic builder then puts both the identifier
    and the version in the API parameters, and neither when no identifier is
    configured.  The Mistral builder puts the identifier in, and the version
    only when a non-empty version is configured too; with no identifier it
    puts in neither. *)
Theorem guardrail_parameters (b : Bedrock.client) (m : Mistral.client) :
  let pb := Bedrock.api_params b prompt max_tokens temperature top_p in
  let pm := Mistral.api_params m prompt max_tokens temperature top_p in
  (if truthy (Bedrock.guardrail_id b)
   then pb !! "guardrailIdentifier" = Some (opt_param (Bedrock.guardrail_id b)) /\
        pb !! "guardrailVersion" = Some (opt_param (Bedrock.guardrail_version b))
   else pb !! "guardrailIdentifier" = None /\ pb !! "guardrailVersion" = None) /\
  (if truthy (Mistral.guardrail_id m)
   then pm !! "guardrailIdentifier" = Some (opt_param (Mistral.guardrail_id m)) /\
        (if truthy (Mistral.guardrail_version m)
         then pm !! "guardrailVersion" = Some (opt_param (Mistral.guardrail_version m))
         else pm !! "guardrailVersion" = None)
   else pm !! "guardrailIdentifier" = None /\ pm !! "guardrailVersion" = None).
Proof.
  intros pb pm.
  destruct (bedrock_guardrail_keys b) as [Hb1 Hb2].
  destruct (mistral_guardrail_keys m) as [Hm1 Hm2].
  fold pb in Hb1, Hb2. fold pm in Hm1, Hm2.
  rewrite Hb1, Hb2, Hm1, Hm2.
  destruct (truthy (Bedrock.guardrail_id b)), (truthy (Mistral.guardrail_id m)),
    (truthy (Mistral.guardrail_version m)); repeat split.
Qed.

End RequestBuilder.

(** C2 as stated fails on the Mistral path: a client made with a guardrail
    identifier and the constructor's default version ([None]) sends the
    identifier without a version. *)
Lemma mistral_identifier_without_version :
  let self := {| Mistral.region := "eu-west-1";
                 Mistral.guardrail_id := Some "gr-1234";
                 Mistral.guardrail_version := None;
                 Mistral.model_id := "mistral.mistral-large-3-675b-instruct" |} in
  let api_params := Mistral.api_params self "Hello" (JInt 1000) 0.7 0.9 in
  truthy (Mistral.guardrail_id self) = true /\
  api_params !! "guardrailIdentifier" = Some (PStr "gr-1234") /\
  api_params !! "guardrailVersion" = None.
Proof. repeat split. Qed.

(** ** Local validation of max_tokens (Mistral) *)

Section Validation.

Variables (self : Mistral.client) (service : gmap string param -> exc json).
Variables (prompt : string) (max_tokens : json) (temperature top_p : Q).
Variable log : list (gmap string param).

Lemma validation_rejects :
  isinstance_int max_tokens = false \/ (int_value max_tokens <= 0)%Z ->
  Mistral.invoke_model self service prompt max_tokens temperature top_p log
    = (Mistral.validation_failure, log).
Proof.
  intros H. unfold Mistral.invoke_model.
  replace (negb (isinstance_int max_tokens) || (int_value max_tokens <=? 0)%Z) with true.
  - reflexivity.
  - symmetry. apply orb_true_iff. destruct H as [-> | H]; [now left | right].
    now apply Z.leb_le.
Qed.

Lemma validation_accepts :
  isinstance_int max_tokens = true -> (0 < int_value max_tokens)%Z ->
  Mistral.invoke_model self service prompt max_tokens temperature top_p log
    = (match service (Mistral.api_params self prompt max_tokens temperature top_p)
               ≫= Mistral.normalize self with
       | inr result => result
       | inl e => Mistral.handle_exception e
       end,
       (log ++ [Mistral.api_params self prompt max_tokens temperature top_p])%list).
Proof.
  intros Hi Hp. unfold Mistral.invoke_model. rewrite Hi.
  replace (int_value max_tokens <=? 0)%Z with false by (symmetry; apply Z.leb_gt; lia).
  reflexivity.
Qed.

End Validation.

(** C3.  A Mistral invocation whose max_tokens is not an [int], or is an
    [int] that is zero or negative, returns the validation failure
    (success false) and makes no remote call; one whose max_tokens is a
    positive [int] passes the check and makes exactly one remote call, with
    the parameters the request builder assembled. *)
Theorem max_tokens_validation (self : Mistral.client)
    (service : gmap string param -> exc json) (prompt : string) (max_tokens : json)
    (temperature top_p : Q) (log : list (gmap string param)) :
  let run := Mistral.invoke_model self service prompt max_tokens temperature top_p log in
  (isinstance_int max_tokens = false \/ (int_value max_tokens <= 0)%Z ->
     success_of (fst run) = Some false /\
     error_kind_of (fst run) = None /\
     snd run = log) /\
  (isinstance_int max_tokens = true /\ (0 < int_value max_tokens)%Z ->
     snd run = (log ++ [Mistral.api_params self prompt max_tokens temperature top_p])%list).
Proof.
  intros run. subst run. split.
  - intros H. rewrite validation_rejects by assumption. repeat split.
  - intros [Hi Hp]. now rewrite validation_accepts.
Qed.

Lemma max_tokens_validation_witness :
  let self := {| Mistral.region := "eu-west-1";
                 Mistral.guardrail_id := None;
                 Mistral.guardrail_version := None;
                 Mistral.model_id := "mistral.mistral-large-3-675b-instruct" |} in
  let service := fun _ : gmap string param => raise (A := json) "unreachable" in
  (snd (Mistral.invoke_model self service "Hi" (JFloat 2.5) 0.7 0.9 []) = [] /\
   snd (Mistral.invoke_model self service "Hi" (JInt (-3)) 0.7 0.9 []) = []) /\
  length (snd (Mistral.invoke_model self service "Hi" (JInt 1000) 0.7 0.9 [])) = 1%nat.
Proof.
  intros self service. split; [split |].
  - apply (max_tokens_validation self service "Hi" (JFloat 2.5) 0.7 0.9 []).
    left. reflexivity.
  - apply (max_tokens_validation self service "Hi" (JInt (-3)) 0.7 0.9 []).
    right. simpl. lia.
  - rewrite (proj2 (max_tokens_validation self service "Hi" (JInt 1000) 0.7 0.9 [])).
    + reflexivity.
    + split; [reflexivity | simpl; lia].
Defined.

(** ** The response normaliser *)

Lemma py_in_obj k (m : gmap string json) :
  py_in k (JObj m) = inr (bool_decide (is_Some (m !! k))).
Proof. reflexivity. Qed.

Lemma py_item_obj k (m : gmap string json) x :
  m !! k = Some x -> py_item (JObj m) k = inr x.
Proof. intros H. unfold py_item. now rewrite H. Qed.

Lemma exc_bind_inr {A B} (f : A -> exc B) (x : A) : (inr x ≫= f) = f x.
Proof. reflexivity. Qed.

Lemma mistral_extract_outputs (m o : gmap string json) (rest : list json) :
  m !! "outputs" = Some (JList (JObj o :: rest)) ->
  Mistral.extract_text (JObj m) = inr (default (JStr "") (o !! "text")).
Proof.
  intros H. unfold Mistral.extract_text.
  rewrite (py_in_obj "outputs"), exc_bind_inr.
  rewrite bool_decide_eq_true_2 by (rewrite H; eauto).
  rewrite (py_item_obj _ _ _ H). reflexivity.
Qed.

Lemma mistral_extract_fallback (m : gmap string json) :
  m !! "outputs" = None \/ m !! "outputs" = Some (JList []) ->
  Mistral.extract_text (JObj m) = inr (default (JStr "") (m !! "completion")).
Proof.
  intros H. unfold Mistral.extract_text.
  rewrite (py_in_obj "outputs"), exc_bind_inr.
  assert ((if bool_decide (is_Some (m !! "outputs"))
           then outputs ← py_item (JObj m) "outputs"; n ← py_len outputs; mret (0 <? n)%Z
           else mret false) = inr false) as ->.
  { destruct H as [H | H].
    - rewrite bool_decide_eq_false_2; [reflexivity | rewrite H; intros [? [=]]].
    - rewrite bool_decide_eq_true_2 by (rewrite H; eauto).
      rewrite (py_item_obj _ _ _ H). reflexivity. }
  rewrite exc_bind_inr. cbv beta iota.
  rewrite (py_in_obj "completion"), exc_bind_inr.
  destruct (m !! "completion") as [c|] eqn:E.
  - rewrite bool_decide_eq_true_2 by eauto. unfold py_get. now rewrite E.
  - rewrite bool_decide_eq_false_2; [reflexivity | intros [? [=]]].
Qed.

(** C4, as the code has it.  On a Mistral body that is an object: when
    "outputs" is a list whose first element is an object, the text is that
    element's "text" (the empty string if it has none), whether or not
    "completion" is present; when "outputs" is absent or an empty list and
    "completion" is present, the text is the completion value; when
    "outputs" is absent or empty and "completion" is absent, the text is the
    empty string and the result has success true. *)
Theorem mistral_extraction_precedence (self : Mistral.client) (m : gmap string json) :
  (forall o rest, m !! "outputs" = Some (JList (JObj o :: rest)) ->
     Mistral.extract_text (JObj m) = inr (default (JStr "") (o !! "text"))) /\
  (forall c, (m !! "outputs" = None \/ m !! "outputs" = Some (JList [])) ->
     m !! "completion" = Some c ->
     Mistral.extract_text (JObj m) = inr c) /\
  ((m !! "outputs" = None \/ m !! "outputs" = Some (JList [])) ->
     m !! "completion" = None ->
     Mistral.extract_text (JObj m) = inr (JStr "") /\
     exists result, Mistral.normalize self (JObj m) = inr result /\
       success_of result = Some true /\ result !! "response" = Some (JStr "")).
Proof.
  split; [| split].
  - intros o rest H. now apply (mistral_extract_outputs m o rest).
  - intros c Ho Hc. rewrite mistral_extract_fallback by assumption. now rewrite Hc.
  - intros Ho Hc.
    assert (Mistral.extract_text (JObj m) = inr (JStr "")) as E.
    { rewrite mistral_extract_fallback by assumption. now rewrite Hc. }
    split; [exact E |].
    unfold Mistral.normalize. rewrite E. eexists. repeat split.
Qed.

Lemma mistral_extraction_precedence_witness :
  let self := {| Mistral.region := "eu-west-1";
                 Mistral.guardrail_id := None;
                 Mistral.guardrail_version := None;
                 Mistral.model_id := "mistral.mistral-large-3-675b-instruct" |} in
  Mistral.extract_text
    (JObj (dict [("outputs", JList [JObj (dict [("text", JStr "Paris")])]);
                 ("completion", JStr "Lyon")])) = inr (JStr "Paris") /\
  Mistral.extract_text (JObj (dict [("completion", JStr "Lyon")])) = inr (JStr "Lyon") /\
  Mistral.extract_text (JObj (dict [("stop_reason", JStr "stop")])) = inr (JStr "").
Proof.
  intros self. split; [| split].
  - apply (proj1 (mistral_extraction_precedence self _)
             (dict [("text", JStr "Paris")]) []). reflexivity.
  - apply (proj1 (proj2 (mistral_extraction_precedence self _))).
    + left. reflexivity.
    + reflexivity.
  - apply (proj2 (proj2 (mistral_extraction_precedence self _))).
    + left. reflexivity.
    + reflexivity.
Defined.

(** C4 as stated fails when "outputs" is an empty list: the body has both
    keys, there is no outputs[0], and the text is the completion value. *)
Lemma empty_outputs_give_completion :
  let body := JObj (dict [("outputs", JList []); ("completion", JStr "Lyon")]) in
  py_in "outputs" body = inr true /\
  py_in "completion" body = inr true /\
  (py_item body "outputs" ≫= py_item0) = inl "list index out of range" /\
  Mistral.extract_text body = inr (JStr "Lyon").
Proof. repeat split. Qed.

(** C5 fails on the Anthropic path.  A body whose "content" is the empty
    list makes [content[0]] raise, so the invocation takes the error branch
    and returns an ApiError result with success false; the Mistral path,
    which tests the length of "outputs" first, returns the empty string with
    success true on the like body. *)
Theorem bedrock_empty_content_is_an_error (self : Bedrock.client) (prompt : string)
    (max_tokens : json) (temperature top_p : Q) (log : list (gmap string param)) :
  let body := JObj (dict [("content", JList [])]) in
  Bedrock.normalize self body = inl "list index out of range" /\
  fst (Bedrock.invoke_model self (fun _ => inr body) prompt max_tokens temperature top_p log)
    = dict [("success", JBool false); ("error", JStr "API error");
            ("message", JStr "list index out of range")] /\
  Mistral.extract_text (JObj (dict [("outputs", JList [])])) = inr (JStr "").
Proof. repeat split. Qed.

(** ** The streaming relay *)

Lemma py_get_obj (m : gmap string json) k d :
  py_get (JObj m) k d = inr (default d (m !! k)).
Proof. reflexivity. Qed.

Lemma relay_chunk_spec (chunk : json) (out : list json) :
  Bedrock.relay_chunk chunk = inr out ->
  (exists t, text_delta chunk t /\ out = [t]) \/
  ((forall t, ~ text_delta chunk t) /\ out = []).
Proof.
  destruct chunk as [| | | | | |m]; try discriminate.
  unfold Bedrock.relay_chunk.
  rewrite (py_get_obj m "type"), exc_bind_inr. cbv beta.
  destruct (is_str "content_block_delta" (default JNull (m !! "type"))) eqn:Ety.
  - apply is_str_spec in Ety.
    destruct (m !! "type") as [ty|] eqn:Hty; [simpl in Ety; subst ty | discriminate].
    rewrite (py_get_obj m "delta"), exc_bind_inr. cbv beta.
    destruct (m !! "delta") as [delta|] eqn:Hdelta.
    + destruct delta as [| | | | | |d]; try discriminate.
      simpl default. rewrite (py_get_obj d "type"), exc_bind_inr. cbv beta.
      destruct (is_str "text_delta" (default JNull (d !! "type"))) eqn:Edty.
      * apply is_str_spec in Edty.
        destruct (d !! "type") as [dty|] eqn:Hdty; [simpl in Edty; subst dty | discriminate].
        rewrite (py_get_obj d "text"), exc_bind_inr. intros [= <-]. left.
        eexists. split; [now apply (text_delta_intro m d) | reflexivity].
      * intros [= <-]. right. split; [| reflexivity].
        intros t Ht. inversion Ht as [m' d' H1 H2 H3]; subst.
        rewrite Hdelta in H2. injection H2 as ->.
        rewrite H3 in Edty. discriminate.
    + intros [= <-]. right. split; [| reflexivity].
      intros t Ht. inversion Ht as [m' d' H1 H2 H3]; subst. congruence.
  - intros [= <-]. right. split; [| reflexivity].
    intros t Ht. inversion Ht as [m' d' H1 H2 H3]; subst.
    rewrite H1 in Ety. discriminate.
Qed.

Lemma relay_cons_inr (event : exc json) (rest : list (exc json)) (out : list json) :
  event ≫= Bedrock.relay_chunk = inr out ->
  Bedrock.relay (event :: rest) =
    ((out ++ fst (Bedrock.relay rest))%list, snd (Bedrock.relay rest)).
Proof. intros H. simpl. rewrite H. now destruct (Bedrock.relay rest). Qed.

Lemma relay_cons_inl (event : exc json) (rest : list (exc json)) (e : exception) :
  event ≫= Bedrock.relay_chunk = inl e -> Bedrock.relay (event :: rest) = ([], Some e).
Proof. intros H. simpl. now rewrite H. Qed.

(** A loop that ends by exhaustion has seen parsed chunks only and has
    yielded their text fragments. *)
Lemma relay_completes (events : list (exc json)) :
  snd (Bedrock.relay events) = None ->
  exists chunks, events = map inr chunks /\ fragments chunks (fst (Bedrock.relay events)).
Proof.
  induction events as [|event rest IH].
  - intros _. exists []. split; [reflexivity | constructor].
  - destruct (event ≫= Bedrock.relay_chunk) as [e|out] eqn:E.
    + rewrite (relay_cons_inl _ _ _ E). discriminate.
    + rewrite (relay_cons_inr _ _ _ E). simpl. intros H.
      destruct (IH H) as (chunks & -> & Hfr).
      destruct event as [e|chunk]; [discriminate |].
      exists (chunk :: chunks). split; [reflexivity |].
      rewrite exc_bind_inr in E.
      destruct (relay_chunk_spec _ _ E) as [(t & Ht & ->) | (Hno & ->)].
      * now apply fragments_delta.
      * now apply fragments_skip.
Qed.

(** A fault after a clean prefix ends the loop with what the prefix yielded. *)
Lemma relay_fault (pre : list json) (bad : exc json) (post : list (exc json))
    (e : exception) :
  snd (Bedrock.relay (map inr pre)) = None ->
  bad ≫= Bedrock.relay_chunk = inl e ->
  Bedrock.relay (map inr pre ++ bad :: post) = (fst (Bedrock.relay (map inr pre)), Some e).
Proof.
  intros Hpre Hbad. induction pre as [|chunk pre IH].
  - simpl app. now rewrite (relay_cons_inl _ _ _ Hbad).
  - simpl map in *. simpl app.
    destruct (inr chunk ≫= Bedrock.relay_chunk) as [e'|out] eqn:E.
    + rewrite (relay_cons_inl _ _ _ E) in Hpre. discriminate.
    + rewrite (relay_cons_inr _ (map inr pre) _ E) in Hpre |- *. simpl in Hpre.
      rewrite (relay_cons_inr _ (map inr pre ++ bad :: post)%list _ E), (IH Hpre).
      reflexivity.
Qed.

Lemma stream_marker_is_string (e : exception) : exists s, Bedrock.stream_marker e = JStr s.
Proof. unfold Bedrock.stream_marker. destruct (_ || _); eauto. Qed.

Lemma text_delta_functional (chunk t t' : json) :
  text_delta chunk t -> text_delta chunk t' -> t = t'.
Proof.
  intros H H'. inversion H as [m d H1 H2 H3]; subst.
  inversion H' as [m' d' H1' H2' H3']; subst. congruence.
Qed.

Lemma fragments_functional (chunks ts ts' : list json) :
  fragments chunks ts -> fragments chunks ts' -> ts = ts'.
Proof.
  intros H. revert ts'.
  induction H as [|chunk t chunks ts Ht _ IH|chunk chunks ts Hno _ IH]; intros ts' H';
    inversion H' as [|chunk' t' chunks' ts'' Ht' Hfr'|chunk' chunks' ts'' Hno' Hfr']; subst.
  - reflexivity.
  - f_equal; [exact (text_delta_functional _ _ _ Ht Ht') | now apply IH].
  - now destruct (Hno' t).
  - now destruct (Hno t').
  - now apply IH.
Qed.

(** C6.  When the loop over the incoming events ends by exhaustion, every
    event was a parsed chunk and the produced sequence is exactly the text
    fragments of the content-delta events, in order, with no marker after
    them; three deltas "Hel", "lo ", "world" produce exactly these three
    strings.  When an event raises (in the iteration, the parse or the
    processing of the chunk) after a prefix that did not, the produced
    sequence is the fragments of the prefix followed by one marker string
    and nothing else; when the call itself raises, it is the marker alone. *)
Theorem streaming_relay (self : Bedrock.client)
    (service : gmap string param -> exc (list (exc json)))
    (prompt : string) (max_tokens : json) (temperature top_p : Q)
    (log : list (gmap string param)) :
  let response := service (Bedrock.api_params self prompt max_tokens temperature top_p) in
  let produced :=
    fst (Bedrock.invoke_model_streaming self service prompt max_tokens temperature top_p log) in
  (forall events, response = inr events -> snd (Bedrock.relay events) = None ->
     exists chunks, events = map inr chunks /\
       fragments chunks produced /\
       forall ts, fragments chunks ts -> ts = produced) /\
  (response = inr (map inr [delta_event "Hel"; delta_event "lo "; delta_event "world"]) ->
     produced = [JStr "Hel"; JStr "lo "; JStr "world"]) /\
  (forall pre bad post e, response = inr (map inr pre ++ bad :: post)%list ->
     snd (Bedrock.relay (map inr pre)) = None ->
     bad ≫= Bedrock.relay_chunk = inl e ->
     exists ts marker, fragments pre ts /\
       Bedrock.stream_marker e = JStr marker /\
       produced = (ts ++ [JStr marker])%list) /\
  (forall e, response = inl e -> produced = [Bedrock.stream_marker e]).
Proof.
  intros response produced.
  assert (produced =
          match response with
          | inl e => [Bedrock.stream_marker e]
          | inr events =>
              match snd (Bedrock.relay events) with
              | Some e => (fst (Bedrock.relay events) ++ [Bedrock.stream_marker e])%list
              | None => fst (Bedrock.relay events)
              end
          end) as Hp.
  { subst produced response. unfold Bedrock.invoke_model_streaming.
    unfold mbind, remote_bind, call_invoke_stream, mret, remote_ret. simpl fst.
    destruct (service _) as [e|events]; [reflexivity |].
    now destruct (Bedrock.relay events) as [outs [e|]]. }
  repeat split.
  - intros events Hr Hnone. rewrite Hr, Hnone in Hp.
    destruct (relay_completes events Hnone) as (chunks & -> & Hfr).
    exists chunks. rewrite Hp. repeat split; [assumption |].
    intros ts Hts. exact (fragments_functional _ _ _ Hts Hfr).
  - intros Hr. rewrite Hr in Hp. exact Hp.
  - intros pre bad post e Hr Hpre Hbad. rewrite Hr in Hp.
    rewrite (relay_fault pre bad post e Hpre Hbad) in Hp. simpl in Hp.
    destruct (relay_completes _ Hpre) as (chunks & Heq & Hfr).
    apply (inj (map inr)) in Heq. subst chunks.
    destruct (stream_marker_is_string e) as [marker Hm].
    exists (fst (Bedrock.relay (map inr pre))), marker.
    rewrite Hp, Hm. repeat split; assumption.
  - intros e Hr. now rewrite Hr in Hp.
Qed.

Lemma streaming_relay_witness :
  let self := Bedrock.init ∅ "eu-west-1" None None None in
  let deltas := [delta_event "Hel"; delta_event "lo "; delta_event "world"] in
  let clean := fun _ : gmap string param =>
    inr (A := string) (map (inr (A := string)) deltas) in
  let faulty := fun _ : gmap string param =>
    inr (A := string)
      (map (inr (A := string)) [delta_event "Hel"] ++ [inl "Connection reset"; inr (delta_event "lo")])%list in
  fst (Bedrock.invoke_model_streaming self clean "Hi" (JInt 2000) 0.7 0.9 [])
    = [JStr "Hel"; JStr "lo "; JStr "world"] /\
  (exists ts marker, fragments [delta_event "Hel"] ts /\
     Bedrock.stream_marker "Connection reset" = JStr marker /\
     fst (Bedrock.invoke_model_streaming self faulty "Hi" (JInt 2000) 0.7 0.9 [])
       = (ts ++ [JStr marker])%list) /\
  (exists chunks, map (inr (A := string)) deltas = map inr chunks /\
     fragments chunks (fst (Bedrock.invoke_model_streaming self clean "Hi" (JInt 2000) 0.7 0.9 [])) /\
     forall ts, fragments chunks ts ->
       ts = fst (Bedrock.invoke_model_streaming self clean "Hi" (JInt 2000) 0.7 0.9 [])).
Proof.
  intros self deltas clean faulty. split; [| split].
  - apply (streaming_relay self clean "Hi" (JInt 2000) 0.7 0.9 []). reflexivity.
  - apply (proj1 (proj2 (proj2 (streaming_relay self faulty "Hi" (JInt 2000) 0.7 0.9 [])))
             [delta_event "Hel"] (inl "Connection reset") [inr (delta_event "lo")]
             "Connection reset"); reflexivity.
  - apply (proj1 (streaming_relay self clean "Hi" (JInt 2000) 0.7 0.9 [])); reflexivity.
Defined.

(** ** The call boundary *)

Lemma bedrock_handle_exception_fails (e : exception) :
  success_of (Bedrock.handle_exception e) = Some false.
Proof. unfold Bedrock.handle_exception. now destruct (_ || _). Qed.

Lemma mistral_handle_exception_fails (e : exception) :
  success_of (Mistral.handle_exception e) = Some false.
Proof. unfold Mistral.handle_exception. now destruct (_ || _). Qed.

Lemma bedrock_normalize_succeeds (self : Bedrock.client) (body : json)
    (result : gmap string json) :
  Bedrock.normalize self body = inr result -> success_of result = Some true.
Proof.
  unfold Bedrock.normalize.
  destruct (py_get body "content" _) as [?|content]; [discriminate |].
  rewrite exc_bind_inr.
  destruct (py_item0 content) as [?|first]; [discriminate |]. rewrite exc_bind_inr.
  destruct (py_get first "text" _) as [?|text]; [discriminate |]. rewrite exc_bind_inr.
  destruct (py_get body "stop_reason" _) as [?|sr]; [discriminate |]. rewrite exc_bind_inr.
  destruct (py_get body "usage" _) as [?|us]; [discriminate |]. rewrite exc_bind_inr.
  destruct (py_get body "model" _) as [?|md]; [discriminate |]. rewrite exc_bind_inr.
  now intros [= <-].
Qed.

Lemma mistral_normalize_succeeds (self : Mistral.client) (body : json)
    (result : gmap string json) :
  Mistral.normalize self body = inr result -> success_of result = Some true.
Proof.
  unfold Mistral.normalize.
  destruct (Mistral.extract_text body) as [?|text]; [discriminate |]. rewrite exc_bind_inr.
  destruct (py_get body "stop_reason" _) as [?|sr]; [discriminate |]. rewrite exc_bind_inr.
  now intros [= <-].
Qed.

Lemma bedrock_invoke_model_result (self : Bedrock.client)
    (service : gmap string param -> exc json) (prompt : string) (max_tokens : json)
    (temperature top_p : Q) (log : list (gmap string param)) :
  fst (Bedrock.invoke_model self service prompt max_tokens temperature top_p log) =
  match service (Bedrock.api_params self prompt max_tokens temperature top_p)
          ≫= Bedrock.normalize self with
  | inr result => result
  | inl e => Bedrock.handle_exception e
  end.
Proof. reflexivity. Qed.

(** C7.  On both paths an invocation always returns a result record with a
    success flag, and whenever the remote call or the processing of its
    response raises, the record is the one the error classifier builds from
    the exception, with success false.  (Exceptions are instances of
    [Exception], the class the handlers catch.) *)
Theorem failures_become_results
    (service : gmap string param -> exc json) (prompt : string) (max_tokens : json)
    (temperature top_p : Q) (log : list (gmap string param)) :
  (forall self : Bedrock.client,
     let result :=
       fst (Bedrock.invoke_model self service prompt max_tokens temperature top_p log) in
     (exists b, success_of result = Some b) /\
     forall e,
       service (Bedrock.api_params self prompt max_tokens temperature top_p)
         ≫= Bedrock.normalize self = inl e ->
       result = Bedrock.handle_exception e /\ success_of result = Some false) /\
  (forall self : Mistral.client,
     let result :=
       fst (Mistral.invoke_model self service prompt max_tokens temperature top_p log) in
     (exists b, success_of result = Some b) /\
     forall e,
       isinstance_int max_tokens = true -> (0 < int_value max_tokens)%Z ->
       service (Mistral.api_params self prompt max_tokens temperature top_p)
         ≫= Mistral.normalize self = inl e ->
       result = Mistral.handle_exception e /\ success_of result = Some false).
Proof.
  split; intros self result; subst result.
  - rewrite bedrock_invoke_model_result.
    destruct (service _) as [e|body]; simpl.
    + split; [exists false; apply bedrock_handle_exception_fails |].
      intros e' [= <-]. split; [reflexivity | apply bedrock_handle_exception_fails].
    + destruct (Bedrock.normalize self body) as [e|result] eqn:E.
      * split; [exists false; apply bedrock_handle_exception_fails |].
        intros e' [= <-]. split; [reflexivity | apply bedrock_handle_exception_fails].
      * split; [exists true; exact (bedrock_normalize_succeeds _ _ _ E) | discriminate].
  - destruct (isinstance_int max_tokens) eqn:Hi;
      [destruct (Z.ltb_spec 0 (int_value max_tokens)) as [Hp | Hp] |].
    + rewrite validation_accepts by assumption. simpl fst.
      destruct (service _) as [e|body]; simpl.
      * split; [exists false; apply mistral_handle_exception_fails |].
        intros e' _ _ [= <-]. split; [reflexivity | apply mistral_handle_exception_fails].
      * destruct (Mistral.normalize self body) as [e|result] eqn:E.
        -- split; [exists false; apply mistral_handle_exception_fails |].
           intros e' _ _ [= <-]. split; [reflexivity | apply mistral_handle_exception_fails].
        -- split; [exists true; exact (mistral_normalize_succeeds _ _ _ E) | discriminate].
    + rewrite validation_rejects by (right; assumption).
      split; [exists false; reflexivity | intros; lia].
    + rewrite validation_rejects by (left; exact Hi).
      split; [exists false; reflexivity | intros; discriminate].
Qed.

Lemma failures_become_results_witness :
  let throttled := fun _ : gmap string param =>
    raise (A := json) "ThrottlingException: Too many requests" in
  success_of (fst (Bedrock.invoke_model (Bedrock.init ∅ "eu-west-1" None None None)
                     throttled "Hi" (JInt 2000) 0.7 0.9 [])) = Some false /\
  success_of (fst (Mistral.invoke_model
                     {| Mistral.region := "eu-west-1";
                        Mistral.guardrail_id := None;
                        Mistral.guardrail_version := None;
                        Mistral.model_id := "mistral.mistral-large-3-675b-instruct" |}
                     throttled "Hi" (JInt 1000) 0.7 0.9 [])) = Some false.
Proof.
  intros throttled. split.
  - destruct (proj1 (failures_become_results throttled "Hi" (JInt 2000) 0.7 0.9 [])
                (Bedrock.init ∅ "eu-west-1" None None None)) as [_ H].
    apply (H "ThrottlingException: Too many requests"). reflexivity.
  - destruct (proj2 (failures_become_results throttled "Hi" (JInt 1000) 0.7 0.9 [])
                {| Mistral.region := "eu-west-1";
                   Mistral.guardrail_id := None;
                   Mistral.guardrail_version := None;
                   Mistral.model_id := "mistral.mistral-large-3-675b-instruct" |}) as [_ H].
    apply (H "ThrottlingException: Too many requests");
      [reflexivity | simpl; lia | reflexivity].
Defined.

(** C8, as the code has it.  Every failure record of the Mistral classifier
    keeps the raw error message under "details"; so does the
    GuardrailIntervention record of the Anthropic classifier.  The ApiError
    record of the Anthropic classifier has no "details" field: it keeps the
    raw error message under "message". *)
Theorem raw_message_retained (error_message : string) :
  Mistral.handle_exception error_message !! "details" = Some (JStr error_message) /\
  (error_kind_of (Bedrock.handle_exception error_message) = Some GuardrailIntervention ->
     Bedrock.handle_exception error_message !! "details" = Some (JStr error_message)) /\
  (error_kind_of (Bedrock.handle_exception error_message) = Some ApiError ->
     Bedrock.handle_exception error_message !! "details" = None /\
     Bedrock.handle_exception error_message !! "message" = Some (JStr error_message)).
Proof.
  unfold Mistral.handle_exception, Bedrock.handle_exception.
  destruct (_ || str_in "ValidationException" _), (_ || str_in "guardrail" _);
    repeat split; intros; try reflexivity; discriminate.
Qed.

Lemma raw_message_retained_witness :
  Bedrock.handle_exception "GuardrailIntervened: blocked" !! "details"
    = Some (JStr "GuardrailIntervened: blocked") /\
  Bedrock.handle_exception "Read timeout" !! "message" = Some (JStr "Read timeout").
Proof.
  split.
  - apply (proj1 (proj2 (raw_message_retained "GuardrailIntervened: blocked"))).
    reflexivity.
  - apply (proj2 (proj2 (raw_message_retained "Read timeout"))). reflexivity.
Defined.

(** C8 as stated fails on the Anthropic path: the ApiError record has no
    "details" field. *)
Lemma bedrock_api_error_has_no_details :
  error_kind_of (Bedrock.handle_exception "Read timeout on endpoint URL") = Some ApiError /\
  Bedrock.handle_exception "Read timeout on endpoint URL" !! "details" = None.
Proof. split; reflexivity. Qed.

(** C9.  On either path the result of an invocation that reaches the
    normaliser is a function of the client configuration and the parsed
    body alone: two invocations of one client whose remote calls return the
    same body give identical results, whatever the prompts, the generation
    parameters, the earlier calls and the rest of the service's behaviour. *)
Theorem normalizer_deterministic (body : json)
    (service1 service2 : gmap string param -> exc json) (prompt1 prompt2 : string)
    (max_tokens1 max_tokens2 : json) (temperature1 temperature2 top_p1 top_p2 : Q)
    (log1 log2 : list (gmap string param)) :
  (forall self : Bedrock.client,
     service1 (Bedrock.api_params self prompt1 max_tokens1 temperature1 top_p1) = inr body ->
     service2 (Bedrock.api_params self prompt2 max_tokens2 temperature2 top_p2) = inr body ->
     fst (Bedrock.invoke_model self service1 prompt1 max_tokens1 temperature1 top_p1 log1) =
     fst (Bedrock.invoke_model self service2 prompt2 max_tokens2 temperature2 top_p2 log2)) /\
  (forall self : Mistral.client,
     isinstance_int max_tokens1 = true -> (0 < int_value max_tokens1)%Z ->
     isinstance_int max_tokens2 = true -> (0 < int_value max_tokens2)%Z ->
     service1 (Mistral.api_params self prompt1 max_tokens1 temperature1 top_p1) = inr body ->
     service2 (Mistral.api_params self prompt2 max_tokens2 temperature2 top_p2) = inr body ->
     fst (Mistral.invoke_model self service1 prompt1 max_tokens1 temperature1 top_p1 log1) =
     fst (Mistral.invoke_model self service2 prompt2 max_tokens2 temperature2 top_p2 log2)).
Proof.
  split; intros self.
  - intros H1 H2. rewrite !bedrock_invoke_model_result, H1, H2. reflexivity.
  - intros Hi1 Hp1 Hi2 Hp2 H1 H2. rewrite !validation_accepts by assumption.
    simpl fst. rewrite H1, H2. reflexivity.
Qed.

Lemma normalizer_deterministic_witness :
  let body := JObj (dict [("content", JList [JObj (dict [("text", JStr "Paris")])]);
                          ("stop_reason", JStr "end_turn")]) in
  let service := fun _ : gmap string param => inr (A := string) body in
  let b := Bedrock.init ∅ "eu-west-1" None None None in
  let m := {| Mistral.region := "eu-west-1";
              Mistral.guardrail_id := None;
              Mistral.guardrail_version := None;
              Mistral.model_id := "mistral.mistral-large-3-675b-instruct" |} in
  fst (Bedrock.invoke_model b service "What is the capital of France?"
         (JInt 1000) 0.7 0.9 []) =
  fst (Bedrock.invoke_model b service "Capital of France?" (JInt 50) 0.2 0.5
         [Bedrock.api_params b "Earlier" (JInt 10) 0.1 0.1]) /\
  fst (Mistral.invoke_model m service "What is the capital of France?"
         (JInt 1000) 0.7 0.9 []) =
  fst (Mistral.invoke_model m service "Capital of France?" (JInt 50) 0.2 0.5 []).
Proof.
  intros body service b m. split.
  - apply (proj1 (normalizer_deterministic body service service _ _ _ _ _ _ _ _ _ _));
      reflexivity.
  - apply (proj2 (normalizer_deterministic body service service _ _ _ _ _ _ _ _ _ _));
      try reflexivity; simpl; lia.
Defined.

(** C10.  The record a Mistral invocation returns when max_tokens fails the
    local check holds the success flag and an error string and nothing
    else: it has no "message" and no "details" field, while every record
    the Mistral error classifier builds for a remote failure has both. *)
Theorem validation_failure_record (self : Mistral.client)
    (service : gmap string param -> exc json) (prompt : string) (max_tokens : json)
    (temperature top_p : Q) (log : list (gmap string param)) :
  isinstance_int max_tokens = false \/ (int_value max_tokens <= 0)%Z ->
  let result :=
    fst (Mistral.invoke_model self service prompt max_tokens temperature top_p log) in
  (forall k, is_Some (result !! k) <-> k = "success" \/ k = "error") /\
  result !! "success" = Some (JBool false) /\
  result !! "error" = Some (JStr "max_tokens must be a positive integer") /\
  result !! "message" = None /\
  result !! "details" = None /\
  forall e, is_Some (Mistral.handle_exception e !! "message") /\
            is_Some (Mistral.handle_exception e !! "details").
Proof.
  intros H result. subst result. rewrite validation_rejects by assumption. simpl fst.
  repeat split; try reflexivity.
  - unfold Mistral.validation_failure, dict. simpl list_to_map.
    intros Hk. apply lookup_insert_is_Some in Hk as [<- | [_ Hk]]; [now left |].
    apply lookup_insert_is_Some in Hk as [<- | [_ Hk]]; [now right |].
    rewrite lookup_empty in Hk. now destruct Hk.
  - intros [-> | ->]; eexists; reflexivity.
  - unfold Mistral.handle_exception. destruct (_ || _); eexists; reflexivity.
  - unfold Mistral.handle_exception. destruct (_ || _); eexists; reflexivity.
Qed.

Lemma validation_failure_record_witness :
  let self := {| Mistral.region := "eu-west-1";
                 Mistral.guardrail_id := Some "gr-1234";
                 Mistral.guardrail_version := Some "1";
                 Mistral.model_id := "mistral.mistral-large-3-675b-instruct" |} in
  let service := fun _ : gmap string param => raise (A := json) "unreachable" in
  fst (Mistral.invoke_model self service "Hi" (JInt 0) 0.7 0.9 []) !! "message" = None /\
  fst (Mistral.invoke_model self service "Hi" (JStr "100") 0.7 0.9 []) !! "details" = None.
Proof.
  intros self service. split.
  - apply (validation_failure_record self service "Hi" (JInt 0) 0.7 0.9 []).
    right. simpl. lia.
  - apply (validation_failure_record self service "Hi" (JStr "100") 0.7 0.9 []).
    left. reflexivity.
Defined.

(** ** Worked examples *)

Example lower_mixed_case : lower "GuardRAIL Policy #7" = "guardrail policy #7".
Proof. reflexivity. Qed.

Example str_in_is_case_sensitive :
  str_in "GuardrailIntervened" "guardrailintervened" = false /\
  str_in "guardrail" (lower "A GUARDRAIL stopped it") = true.
Proof. split; reflexivity. Qed.

Example bedrock_init_defaults :
  let self := Bedrock.init {["GUARDRAIL_ID" := "gr-env"]} "eu-west-1" None None None in
  Bedrock.guardrail_id self = Some "gr-env" /\
  Bedrock.guardrail_version self = Some "1" /\
  Bedrock.inference_profile_id self = None.
Proof. repeat split. Qed.

(** The end-to-end scenario of the specification: no guardrail configured,
    the service answers with a one-block message. *)
Example capital_of_france :
  let self := Bedrock.init ∅ "eu-west-1" None None None in
  let body := JObj (dict [
    ("content", JList [JObj (dict [("type", JStr "text"); ("text", JStr "Paris.")])]);
    ("stop_reason", JStr "end_turn");
    ("model", JStr "claude-sonnet-4-20250514")
  ]) in
  let result :=
    fst (Bedrock.invoke_model self (fun _ => inr body)
           "What is the capital of France?" (JInt 1000) 0.7 0.9 []) in
  result !! "success" = Some (JBool true) /\
  result !! "guardrail_applied" = Some (JBool false) /\
  result !! "response" = Some (JStr "Paris.") /\
  result !! "usage" = Some JNull.
Proof. repeat split. Qed.

Example interrupted_stream :
  let self := Bedrock.init ∅ "eu-west-1" None None None in
  let events := [inr (delta_event "Hel"); inr (JObj (dict [("type", JStr "ping")]));
                 inl "GuardrailIntervened"; inr (delta_event "lo")] in
  fst (Bedrock.invoke_model_streaming self (fun _ => inr events) "Hi" (JInt 2000) 0.7 0.9 [])
  = [JStr "Hel";
     JStr (nl +:+ "[ERROR: Request blocked by guardrails. Please rephrase your question.]" +:+ nl)].
Proof. reflexivity. Qed.

(** ** Further properties of the request builder *)

Lemma truthy_Some (o : option string) :
  truthy o = true -> exists s, o = Some s /\ s <> "".
Proof. destruct o as [[|c s]|]; try discriminate. intros _. eexists. split; [reflexivity | discriminate]. Qed.

Lemma py_or_is_Some (a : option string) (s : string) : is_Some (py_or a (Some s)).
Proof. unfold py_or. destruct (truthy a) eqn:E; [| eauto]. apply truthy_Some in E as (x & -> & _). eauto. Qed.

(** X1.  A client built by [BedrockGuardrailClient.__init__] always has a
    guardrail version (the argument, the environment's or "1"), so a
    request of such a client with a configured guardrail carries both keys
    with string values, never [None]; and with no argument given, a
    non-empty GUARDRAIL_ID of the environment alone configures the
    guardrail, with version "1" when GUARDRAIL_VERSION is unset. *)
Theorem bedrock_init_guardrail_configuration (env : gmap string string) (region : string)
    (guardrail_id guardrail_version inference_profile_id : option string)
    (prompt : string) (max_tokens : json) (temperature top_p : Q) :
  let self := Bedrock.init env region guardrail_id guardrail_version inference_profile_id in
  let api_params := Bedrock.api_params self prompt max_tokens temperature top_p in
  (truthy (Bedrock.guardrail_id self) = true ->
     exists id version,
       api_params !! "guardrailIdentifier" = Some (PStr id) /\
       api_params !! "guardrailVersion" = Some (PStr version)) /\
  (forall id, truthy guardrail_id = false -> truthy guardrail_version = false ->
     env !! "GUARDRAIL_ID" = Some id -> id <> "" -> env !! "GUARDRAIL_VERSION" = None ->
     api_params !! "guardrailIdentifier" = Some (PStr id) /\
     api_params !! "guardrailVersion" = Some (PStr "1")).
Proof.
  intros self api_params.
  destruct (bedrock_guardrail_keys prompt max_tokens temperature top_p self) as [H1 H2].
  fold api_params in H1, H2. split.
  - intros Ht. rewrite Ht in H1, H2.
    destruct (truthy_Some _ Ht) as (id & Hid & _).
    destruct (py_or_is_Some guardrail_version (default "1" (env !! "GUARDRAIL_VERSION")))
      as [version Hv].
    exists id, version. rewrite H1, H2, Hid. subst self. simpl Bedrock.guardrail_version.
    now rewrite Hv.
  - intros id Hg Hv Hid Hne Hver.
    assert (Bedrock.guardrail_id self = Some id) as Eid.
    { subst self. simpl. unfold py_or. now rewrite Hg. }
    assert (Bedrock.guardrail_version self = Some "1") as Ever.
    { subst self. simpl. unfold py_or. now rewrite Hv, Hver. }
    assert (truthy (Bedrock.guardrail_id self) = true) as Ht.
    { rewrite Eid. destruct id; [congruence | reflexivity]. }
    rewrite H1, H2, Ht, Eid, Ever. split; reflexivity.
Qed.

Lemma bedrock_init_guardrail_configuration_witness :
  let env : gmap string string := {["GUARDRAIL_ID" := "gr-env"]} in
  let api_params :=
    Bedrock.api_params (Bedrock.init env "eu-west-1" None None None) "Hi" (JInt 2000) 0.7 0.9 in
  (exists id version,
     api_params !! "guardrailIdentifier" = Some (PStr id) /\
     api_params !! "guardrailVersion" = Some (PStr version)) /\
  api_params !! "guardrailIdentifier" = Some (PStr "gr-env") /\
  api_params !! "guardrailVersion" = Some (PStr "1").
Proof.
  intros env api_params. split.
  - apply (proj1 (bedrock_init_guardrail_configuration env "eu-west-1" None None None
                    "Hi" (JInt 2000) 0.7 0.9)). reflexivity.
  - apply (proj2 (bedrock_init_guardrail_configuration env "eu-west-1" None None None
                    "Hi" (JInt 2000) 0.7 0.9) "gr-env"); try reflexivity. discriminate.
Defined.

Ltac key_cases Hk :=
  repeat (apply lookup_insert_is_Some in Hk as [<- | [_ Hk]]; [auto 10 |]);
  rewrite lookup_empty in Hk; now destruct Hk.

(** X2.  On both paths the API parameters always name a model, carry the
    serialised request body and declare "application/json" for both
    contentType and accept; and they never hold a key other than these four
    and the two guardrail keys.  The Anthropic model is the inference
    profile when a non-empty one is configured and the client's model
    otherwise; the Mistral model is the client's. *)
Theorem api_parameters_shape (b : Bedrock.client) (m : Mistral.client)
    (prompt : string) (max_tokens : json) (temperature top_p : Q) :
  let pb := Bedrock.api_params b prompt max_tokens temperature top_p in
  let pm := Mistral.api_params m prompt max_tokens temperature top_p in
  (pb !! "modelId" =
     Some (PStr (if truthy (Bedrock.inference_profile_id b)
                 then default "" (Bedrock.inference_profile_id b)
                 else Bedrock.model_id b)) /\
   pb !! "body" = Some (PDumps (Bedrock.request_body prompt max_tokens temperature top_p)) /\
   pb !! "contentType" = Some (PStr "application/json") /\
   pb !! "accept" = Some (PStr "application/json") /\
   forall k, is_Some (pb !! k) ->
     k = "modelId" \/ k = "body" \/ k = "contentType" \/ k = "accept" \/
     k = "guardrailIdentifier" \/ k = "guardrailVersion") /\
  (pm !! "modelId" = Some (PStr (Mistral.model_id m)) /\
   pm !! "body" = Some (PDumps (Mistral.request_body prompt max_tokens temperature top_p)) /\
   pm !! "contentType" = Some (PStr "application/json") /\
   pm !! "accept" = Some (PStr "application/json") /\
   forall k, is_Some (pm !! k) ->
     k = "modelId" \/ k = "body" \/ k = "contentType" \/ k = "accept" \/
     k = "guardrailIdentifier" \/ k = "guardrailVersion").
Proof.
  intros pb pm. subst pb pm. unfold Bedrock.api_params, Mistral.api_params. split.
  - destruct (truthy (Bedrock.guardrail_id b));
      (repeat split;
       [destruct (Bedrock.inference_profile_id b) as [[|c s]|]; reflexivity
       |intros k Hk; simpl list_to_map in Hk; key_cases Hk]).
  - destruct (truthy (Mistral.guardrail_id m)); [destruct (truthy (Mistral.guardrail_version m)) |];
      (repeat split; intros k Hk; simpl list_to_map in Hk; key_cases Hk).
Qed.

(** The request builders pass the prompt and the three generation
    parameters through unchanged, whatever their values: the Anthropic body
    holds one message, of role "user", whose content is the prompt, and the
    fixed "anthropic_version"; the Mistral body holds the prompt itself.
    No value is clamped, defaulted or dropped. *)
Lemma request_body_passes_values_through (prompt : string) (max_tokens : json)
    (temperature top_p : Q) :
  let bb := Bedrock.request_body prompt max_tokens temperature top_p in
  let mb := Mistral.request_body prompt max_tokens temperature top_p in
  (py_item bb "max_tokens" = inr max_tokens /\
   py_item bb "temperature" = inr (JFloat temperature) /\
   py_item bb "top_p" = inr (JFloat top_p) /\
   py_item bb "anthropic_version" = inr (JStr "bedrock-2023-05-31") /\
   (messages ← py_item bb "messages"; py_len messages) = inr 1%Z /\
   (messages ← py_item bb "messages"; first ← py_item0 messages; py_item first "role")
     = inr (JStr "user") /\
   (messages ← py_item bb "messages"; first ← py_item0 messages; py_item first "content")
     = inr (JStr prompt)) /\
  (py_item mb "prompt" = inr (JStr prompt) /\
   py_item mb "max_tokens" = inr max_tokens /\
   py_item mb "temperature" = inr (JFloat temperature) /\
   py_item mb "top_p" = inr (JFloat top_p) /\
   py_len mb = inr 4%Z).
Proof. repeat split. Qed.

(** ** Further properties of the invocations *)

(** X3.  The Anthropic client validates nothing locally: whatever
    max_tokens is (zero, negative, not a number), [invoke_model] and
    [invoke_model_streaming] each make exactly one remote call, with the
    parameters the request builder assembled, and leave the earlier calls
    of the log in place; the Mistral client makes no call for the same
    arguments when max_tokens is not a positive [int]. *)
Theorem bedrock_always_calls_remote (self : Bedrock.client)
    (service : gmap string param -> exc json)
    (stream_service : gmap string param -> exc (list (exc json)))
    (prompt : string) (max_tokens : json) (temperature top_p : Q)
    (log : list (gmap string param)) :
  snd (Bedrock.invoke_model self service prompt max_tokens temperature top_p log)
    = (log ++ [Bedrock.api_params self prompt max_tokens temperature top_p])%list /\
  snd (Bedrock.invoke_model_streaming self stream_service prompt max_tokens temperature top_p log)
    = (log ++ [Bedrock.api_params self prompt max_tokens temperature top_p])%list /\
  forall m : Mistral.client,
    snd (Mistral.invoke_model m service prompt max_tokens temperature top_p log) =
    if isinstance_int max_tokens && (0 <? int_value max_tokens)%Z
    then (log ++ [Mistral.api_params m prompt max_tokens temperature top_p])%list
    else log.
Proof.
  repeat split. intros m.
  destruct (isinstance_int max_tokens) eqn:Hi;
    [destruct (Z.ltb_spec 0 (int_value max_tokens)) as [Hp | Hp] |]; simpl andb.
  - now rewrite validation_accepts.
  - now rewrite validation_rejects by (right; assumption).
  - now rewrite validation_rejects by (left; exact Hi).
Qed.

(** ** Exactly when the normalisers succeed *)

Lemma bedrock_normalize_obj (self : Bedrock.client) (m : gmap string json) :
  Bedrock.normalize self (JObj m) =
  (first ← py_item0 (default (JList [JObj ∅]) (m !! "content"));
   text_response ← py_get first "text" (JStr "");
   mret (dict [
     ("success", JBool true);
     ("response", text_response);
     ("stop_reason", default JNull (m !! "stop_reason"));
     ("usage", default JNull (m !! "usage"));
     ("model_id", default JNull (m !! "model"));
     ("guardrail_applied", JBool (bool_decide (is_Some (Bedrock.guardrail_id self))))
   ])).
Proof.
  unfold Bedrock.normalize. rewrite (py_get_obj m "content"), exc_bind_inr.
  destruct (py_item0 _) as [e|first]; [reflexivity |]. rewrite !exc_bind_inr.
  destruct (py_get first "text" _) as [e|text]; reflexivity.
Qed.

Lemma bedrock_normalize_shape (self : Bedrock.client) (body : json)
    (result : gmap string json) :
  Bedrock.normalize self body = inr result ->
  exists m o,
    body = JObj m /\
    (m !! "content" = None /\ o = ∅ \/
     exists rest, m !! "content" = Some (JList (JObj o :: rest))) /\
    result = dict [
      ("success", JBool true);
      ("response", default (JStr "") (o !! "text"));
      ("stop_reason", default JNull (m !! "stop_reason"));
      ("usage", default JNull (m !! "usage"));
      ("model_id", default JNull (m !! "model"));
      ("guardrail_applied", JBool (bool_decide (is_Some (Bedrock.guardrail_id self))))
    ].
Proof.
  destruct body as [| | | | | |m]; try discriminate.
  rewrite bedrock_normalize_obj.
  destruct (m !! "content") as [content|] eqn:Ec; simpl default.
  - destruct content as [| | | |[|c s]|[|first rest]|m']; try discriminate.
    destruct first as [| | | | | |o]; try discriminate.
    intros [= <-]. exists m, o. split; [reflexivity |]. split; [right; eauto | reflexivity].
  - intros [= <-]. exists m, ∅. split; [reflexivity |]. split; [left; auto | reflexivity].
Qed.

(** X4.  The Anthropic normaliser succeeds exactly on a body that is an
    object whose "content" is absent or is a list that begins with an
    object.  The result then takes its text from that first block alone
    (the empty string when the block has no "text" or "content" is absent)
    and copies "stop_reason", "usage" and "model" from the body, with
    [None] for each one the body lacks. *)
Theorem bedrock_normalize_succeeds_iff (self : Bedrock.client) (body : json)
    (result : gmap string json) :
  Bedrock.normalize self body = inr result <->
  exists m o,
    body = JObj m /\
    (m !! "content" = None /\ o = ∅ \/
     exists rest, m !! "content" = Some (JList (JObj o :: rest))) /\
    result = dict [
      ("success", JBool true);
      ("response", default (JStr "") (o !! "text"));
      ("stop_reason", default JNull (m !! "stop_reason"));
      ("usage", default JNull (m !! "usage"));
      ("model_id", default JNull (m !! "model"));
      ("guardrail_applied", JBool (bool_decide (is_Some (Bedrock.guardrail_id self))))
    ].
Proof.
  split.
  - apply bedrock_normalize_shape.
  - intros (m & o & -> & Hc & ->). rewrite bedrock_normalize_obj.
    destruct Hc as [[Hc ->] | [rest Hc]]; rewrite Hc; reflexivity.
Qed.

Lemma mistral_extract_text_obj (m : gmap string json) :
  Mistral.extract_text (JObj m) =
  match m !! "outputs" with
  | None => inr (default (JStr "") (m !! "completion"))
  | Some outputs =>
      n ← py_len outputs;
      if (0 <? n)%Z then first ← py_item0 outputs; py_get first "text" (JStr "")
      else inr (default (JStr "") (m !! "completion"))
  end.
Proof.
  destruct (m !! "outputs") as [outputs|] eqn:Eo.
  - unfold Mistral.extract_text. rewrite (py_in_obj "outputs"), exc_bind_inr.
    rewrite bool_decide_eq_true_2 by (rewrite Eo; eauto).
    rewrite (py_item_obj _ _ _ Eo), !exc_bind_inr.
    destruct (py_len outputs) as [e|n]; [reflexivity |]. rewrite !exc_bind_inr.
    destruct (0 <? n)%Z; [reflexivity |].
    rewrite (py_in_obj "completion"), exc_bind_inr.
    destruct (m !! "completion") as [c|] eqn:Ec.
    + rewrite bool_decide_eq_true_2 by eauto. unfold py_get. now rewrite Ec.
    + rewrite bool_decide_eq_false_2; [reflexivity | intros [? [=]]].
  - apply mistral_extract_fallback. now left.
Qed.

Lemma mistral_normalize_obj (self : Mistral.client) (m : gmap string json) :
  Mistral.normalize self (JObj m) =
  (text_response ← Mistral.extract_text (JObj m);
   mret (dict [
     ("success", JBool true);
     ("response", text_response);
     ("stop_reason", default JNull (m !! "stop_reason"));
     ("model_id", JStr (Mistral.model_id self));
     ("guardrail_applied", JBool (bool_decide (is_Some (Mistral.guardrail_id self))));
     ("raw_response", JObj m)
   ])).
Proof.
  unfold Mistral.normalize. destruct (Mistral.extract_text _) as [e|text]; reflexivity.
Qed.

Lemma mistral_normalize_needs_object (self : Mistral.client) (body : json)
    (result : gmap string json) :
  Mistral.normalize self body = inr result -> exists m, body = JObj m.
Proof.
  unfold Mistral.normalize.
  destruct (Mistral.extract_text body) as [e|text]; [discriminate |]. rewrite exc_bind_inr.
  destruct body; try discriminate. eauto.
Qed.

Lemma mistral_normalize_shape (self : Mistral.client) (body : json)
    (result : gmap string json) :
  Mistral.normalize self body = inr result ->
  exists m text,
    body = JObj m /\
    ((m !! "outputs" = None \/ exists outputs, m !! "outputs" = Some outputs /\
                                                  py_len outputs = inr 0%Z) /\
       text = default (JStr "") (m !! "completion") \/
     exists o rest, m !! "outputs" = Some (JList (JObj o :: rest)) /\
       text = default (JStr "") (o !! "text")) /\
    result = dict [
      ("success", JBool true);
      ("response", text);
      ("stop_reason", default JNull (m !! "stop_reason"));
      ("model_id", JStr (Mistral.model_id self));
      ("guardrail_applied", JBool (bool_decide (is_Some (Mistral.guardrail_id self))));
      ("raw_response", JObj m)
    ].
Proof.
  intros H. destruct (mistral_normalize_needs_object _ _ _ H) as [m ->].
  revert H. rewrite mistral_normalize_obj, mistral_extract_text_obj.
  destruct (m !! "outputs") as [outputs|] eqn:Eo.
  - destruct (py_len outputs) as [e|n] eqn:En; [discriminate |].
    rewrite exc_bind_inr. destruct (Z.ltb_spec 0 n) as [Hn | Hn].
    + intros H.
      destruct outputs as [| | | |[|c s]|[|first rest]|m'];
        try discriminate En; try discriminate H.
      destruct first as [| | | | | |o]; try discriminate H.
      injection H as <-. exists m, (default (JStr "") (o !! "text")).
      split; [reflexivity |]. split; [right; eauto | reflexivity].
    + assert (n = 0%Z) as ->.
      { destruct outputs; try discriminate; simpl in En; injection En as <-; lia. }
      intros [= <-]. exists m, (default (JStr "") (m !! "completion")).
      split; [reflexivity |]. split; [left; split; [right; eauto | reflexivity] | reflexivity].
  - intros [= <-]. exists m, (default (JStr "") (m !! "completion")).
    split; [reflexivity |]. split; [left; split; [now left | reflexivity] | reflexivity].
Qed.

(** X5.  The Mistral normaliser succeeds exactly on a body that is an
    object whose "outputs" is absent, is empty (a list, string or object of
    length 0), or is a list that begins with an object.  In the last case
    the text is that object's "text"; in the others it is the "completion"
    value; the empty string stands in for a missing one.  The result names
    the client's configured model and holds the whole body as
    "raw_response".  An "outputs" of any other shape ([None], a number, a
    non-empty string, a list that begins with a non-object) makes the
    normaliser raise. *)
Theorem mistral_normalize_succeeds_iff (self : Mistral.client) (body : json)
    (result : gmap string json) :
  Mistral.normalize self body = inr result <->
  exists m text,
    body = JObj m /\
    ((m !! "outputs" = None \/ exists outputs, m !! "outputs" = Some outputs /\
                                                  py_len outputs = inr 0%Z) /\
       text = default (JStr "") (m !! "completion") \/
     exists o rest, m !! "outputs" = Some (JList (JObj o :: rest)) /\
       text = default (JStr "") (o !! "text")) /\
    result = dict [
      ("success", JBool true);
      ("response", text);
      ("stop_reason", default JNull (m !! "stop_reason"));
      ("model_id", JStr (Mistral.model_id self));
      ("guardrail_applied", JBool (bool_decide (is_Some (Mistral.guardrail_id self))));
      ("raw_response", JObj m)
    ].
Proof.
  split.
  - apply mistral_normalize_shape.
  - intros (m & text & -> & Ht & ->).
    rewrite mistral_normalize_obj, mistral_extract_text_obj.
    destruct Ht as [[[Ho | (outputs & Ho & Hl)] ->] | (o & rest & Ho & ->)]; rewrite Ho.
    + reflexivity.
    + rewrite Hl. reflexivity.
    + reflexivity.
Qed.

(** X6.  The "guardrail_applied" flag of a success result says whether the
    client's guardrail identifier is not [None]; the request builder sends
    the guardrail keys only for a non-empty identifier.  So a client whose
    identifier is the empty string reports guardrail_applied true for
    requests that carried no guardrail key at all. *)
Theorem guardrail_applied_reports_presence (body : json) (result : gmap string json)
    (prompt : string) (max_tokens : json) (temperature top_p : Q) :
  (forall self : Bedrock.client,
     Bedrock.normalize self body = inr result ->
     (result !! "guardrail_applied" = Some (JBool true) <->
        Bedrock.guardrail_id self <> None) /\
     (Bedrock.guardrail_id self = Some "" ->
        let api_params := Bedrock.api_params self prompt max_tokens temperature top_p in
        result !! "guardrail_applied" = Some (JBool true) /\
        api_params !! "guardrailIdentifier" = None /\
        api_params !! "guardrailVersion" = None)) /\
  (forall self : Mistral.client,
     Mistral.normalize self body = inr result ->
     (result !! "guardrail_applied" = Some (JBool true) <->
        Mistral.guardrail_id self <> None) /\
     (Mistral.guardrail_id self = Some "" ->
        let api_params := Mistral.api_params self prompt max_tokens temperature top_p in
        result !! "guardrail_applied" = Some (JBool true) /\
        api_params !! "guardrailIdentifier" = None /\
        api_params !! "guardrailVersion" = None)).
Proof.
  split; intros self H.
  - apply bedrock_normalize_shape in H as (m & o & _ & _ & ->).
    pose proof (bedrock_guardrail_keys prompt max_tokens temperature top_p self) as [K1 K2].
    match goal with
    | |- context [?d !! "guardrail_applied"] =>
        replace (d !! "guardrail_applied")
          with (Some (JBool (bool_decide (is_Some (Bedrock.guardrail_id self)))))
          by reflexivity
    end.
    split.
    + destruct (Bedrock.guardrail_id self); split; intros H; try reflexivity;
        try congruence; discriminate H.
    + intros E. rewrite E in *. repeat split; assumption.
  - apply mistral_normalize_shape in H as (m & text & _ & _ & ->).
    pose proof (mistral_guardrail_keys prompt max_tokens temperature top_p self) as [K1 K2].
    match goal with
    | |- context [?d !! "guardrail_applied"] =>
        replace (d !! "guardrail_applied")
          with (Some (JBool (bool_decide (is_Some (Mistral.guardrail_id self)))))
          by reflexivity
    end.
    split.
    + destruct (Mistral.guardrail_id self); split; intros H; try reflexivity;
        try congruence; discriminate H.
    + intros E. rewrite E in *. repeat split; assumption.
Qed.

Lemma guardrail_applied_reports_presence_witness :
  let self := {| Mistral.region := "eu-west-1";
                 Mistral.guardrail_id := Some "";
                 Mistral.guardrail_version := Some "1";
                 Mistral.model_id := "mistral.mistral-large-3-675b-instruct" |} in
  let body := JObj (dict [("completion", JStr "Paris")]) in
  let result := dict [
    ("success", JBool true);
    ("response", JStr "Paris");
    ("stop_reason", JNull);
    ("model_id", JStr "mistral.mistral-large-3-675b-instruct");
    ("guardrail_applied", JBool true);
    ("raw_response", body)
  ] in
  result !! "guardrail_applied" = Some (JBool true) /\
  Mistral.api_params self "Hi" (JInt 1000) 0.7 0.9 !! "guardrailIdentifier" = None /\
  Mistral.api_params self "Hi" (JInt 1000) 0.7 0.9 !! "guardrailVersion" = None.
Proof.
  intros self body result.
  apply (proj2 (guardrail_applied_reports_presence body result "Hi" (JInt 1000) 0.7 0.9) self);
    reflexivity.
Defined.

(** ** Further properties of the error classifier *)

Lemma intervened_names_guardrail (error_message : string) :
  contains "GuardrailIntervened" error_message -> contains_nocase "guardrail" error_message.
Proof.
  intros (pre & post & ->).
  exists pre, "Guardrail", ("Intervened" +:+ post). split.
  - reflexivity.
  - apply eq_nocase_lower; reflexivity.
Qed.

(** X7.  On the Anthropic path the test for "GuardrailIntervened" never
    decides anything: a message is classified GuardrailIntervention exactly
    when it contains "guardrail" in some mix of capital and small letters,
    and ApiError exactly when it does not. *)
Theorem bedrock_classifier_is_one_test (error_message : string) :
  (error_kind_of (Bedrock.handle_exception error_message) = Some GuardrailIntervention <->
     contains_nocase "guardrail" error_message) /\
  (error_kind_of (Bedrock.handle_exception error_message) = Some ApiError <->
     ~ contains_nocase "guardrail" error_message).
Proof.
  assert (str_in "GuardrailIntervened" error_message || str_in "guardrail" (lower error_message)
          = true <-> contains_nocase "guardrail" error_message) as H.
  { rewrite bedrock_guardrail_test. split; [| now right].
    intros [H | H]; [now apply intervened_names_guardrail | exact H]. }
  unfold Bedrock.handle_exception. destruct (_ || _).
  - split; split; intros; try reflexivity; try discriminate.
    + now apply H.
    + exfalso. apply H0. now apply H.
  - split; split; intros; try reflexivity; try discriminate.
    + apply H in H0. discriminate.
    + intros Hc. apply H in Hc. discriminate.
Qed.

(** X8.  The streaming relay and [invoke_model] classify alike: the
    marker that ends a faulted stream is the fixed guardrail marker exactly
    for the messages [invoke_model] reports as a guardrail intervention,
    and for every other message it is the raw message between
    "[ERROR: " and "]", on a line of its own. *)
Theorem stream_marker_follows_classifier (error_message : string) :
  Bedrock.stream_marker error_message =
  match error_kind_of (Bedrock.handle_exception error_message) with
  | Some GuardrailIntervention =>
      JStr (nl +:+ "[ERROR: Request blocked by guardrails. Please rephrase your question.]"
               +:+ nl)
  | _ => JStr (nl +:+ "[ERROR: " +:+ error_message +:+ "]" +:+ nl)
  end.
Proof.
  unfold Bedrock.stream_marker, Bedrock.handle_exception. now destruct (_ || _).
Qed.

(** ** Further properties of the streaming relay *)

Lemma relay_chunk_at_most_one (chunk : json) (out : list json) :
  Bedrock.relay_chunk chunk = inr out -> (length out <= 1)%nat.
Proof.
  intros H. destruct (relay_chunk_spec _ _ H) as [(t & _ & ->) | (_ & ->)]; simpl; lia.
Qed.

(** X9.  The relay works event by event.  After a prefix of the events
    that raised no fault, it goes on with the rest: what the prefix yielded
    stays at the front of the produced sequence, in place.  After a prefix
    that raised, the rest of the events is never looked at. *)
Theorem relay_app (events1 events2 : list (exc json)) :
  Bedrock.relay (events1 ++ events2) =
  match snd (Bedrock.relay events1) with
  | None => ((fst (Bedrock.relay events1) ++ fst (Bedrock.relay events2))%list,
             snd (Bedrock.relay events2))
  | Some e => Bedrock.relay events1
  end.
Proof.
  induction events1 as [|event rest IH].
  - simpl. now destruct (Bedrock.relay events2).
  - change ((event :: rest) ++ events2)%list with (event :: (rest ++ events2))%list.
    destruct (event ≫= Bedrock.relay_chunk) as [e|out] eqn:E.
    + now rewrite !(relay_cons_inl _ _ _ E).
    + rewrite (relay_cons_inr _ (rest ++ events2)%list _ E), (relay_cons_inr _ rest _ E), IH.
      simpl snd. destruct (snd (Bedrock.relay rest)) as [e|] eqn:Er.
      * now rewrite Er.
      * simpl. now rewrite app_assoc.
Qed.

(** X10.  The relay yields at most one value for each incoming event, and
    a stream run to its end produces at most one value more than it had
    events (the marker). *)
Theorem relay_yields_at_most_one_per_event (self : Bedrock.client)
    (service : gmap string param -> exc (list (exc json)))
    (prompt : string) (max_tokens : json) (temperature top_p : Q)
    (log : list (gmap string param)) (events : list (exc json)) :
  service (Bedrock.api_params self prompt max_tokens temperature top_p) = inr events ->
  (length (fst (Bedrock.relay events)) <= length events)%nat /\
  (length (fst (Bedrock.invoke_model_streaming self service prompt max_tokens
                  temperature top_p log)) <= length events + 1)%nat.
Proof.
  intros Hs.
  assert (length (fst (Bedrock.relay events)) <= length events)%nat as Hlen.
  { clear Hs. induction events as [|event rest IH]; [simpl; lia |].
    destruct (event ≫= Bedrock.relay_chunk) as [e|out] eqn:E.
    - rewrite (relay_cons_inl _ _ _ E). simpl. lia.
    - rewrite (relay_cons_inr _ _ _ E). simpl fst. rewrite length_app.
      destruct event as [e|chunk]; [discriminate |]. rewrite exc_bind_inr in E.
      apply relay_chunk_at_most_one in E. simpl length. lia. }
  split; [exact Hlen |].
  unfold Bedrock.invoke_model_streaming.
  unfold mbind, remote_bind, call_invoke_stream, mret, remote_ret. simpl fst. rewrite Hs.
  destruct (Bedrock.relay events) as [outs [e|]]; simpl in *.
  - rewrite length_app. simpl. lia.
  - lia.
Qed.

Lemma relay_yields_at_most_one_per_event_witness :
  let events := [inr (delta_event "Hel"); inl "Connection reset"; inr (delta_event "lo")] in
  let self := Bedrock.init ∅ "eu-west-1" None None None in
  (length (fst (Bedrock.relay events)) <= 3)%nat /\
  (length (fst (Bedrock.invoke_model_streaming self (fun _ => inr events) "Hi" (JInt 2000)
                  0.7 0.9 [])) <= 3 + 1)%nat.
Proof.
  intros events self.
  apply (relay_yields_at_most_one_per_event self (fun _ => inr events) "Hi" (JInt 2000)
           0.7 0.9 [] events). reflexivity.
Defined.

(** ** Reasoning about script statements *)

Section Effects.

Context {A B : Type}.

Lemma returns_with_calling (m : io A) (P : A -> Prop) ps :
  returns_with m P ps -> returns_calling m ps.
Proof. intros H w. destruct (H w) as (x & w' & E & _ & Hc). eauto. Qed.

Lemma returns_calling_with (m : io A) ps :
  returns_calling m ps -> returns_with m (fun _ => True) ps.
Proof. intros H w. destruct (H w) as (x & w' & E & Hc). eauto 6. Qed.

Lemma returns_ret (x : A) : returns_calling (mret x : io A) [].
Proof. intros w. exists x, w. split; [reflexivity | now rewrite app_nil_r]. Qed.

Lemma returns_lift_exc (x : A) : returns_with (lift_exc (inr x)) (eq x) [].
Proof. intros w. exists x, w. repeat split. now rewrite app_nil_r. Qed.

Lemma raises_lift_exc (e : exception) : raises_calling (lift_exc (inl e) : io A) e [].
Proof. intros w. exists w. split; [reflexivity | now rewrite app_nil_r]. Qed.

Lemma returns_lift_remote (m : remote A) (P : A -> Prop) ps :
  (forall log, P (fst (m log)) /\ snd (m log) = (log ++ ps)%list) ->
  returns_with (lift_remote m) P ps.
Proof.
  intros H w. destruct (H (calls w)) as [HP Hc]. unfold lift_remote.
  destruct (m (calls w)) as [x log]. simpl in *. eauto 6.
Qed.

Lemma returns_bind (m : io A) (k : A -> io B) (P : A -> Prop) ps qs :
  returns_with m P ps -> (forall x, P x -> returns_calling (k x) qs) ->
  returns_calling (m ≫= k) (ps ++ qs).
Proof.
  intros Hm Hk w. destruct (Hm w) as (x & w1 & E1 & HP & Hc1).
  destruct (Hk x HP w1) as (y & w2 & E2 & Hc2).
  exists y, w2. unfold mbind, io_bind. rewrite E1, E2. split; [reflexivity |].
  now rewrite Hc2, Hc1, app_assoc.
Qed.

Lemma returns_seq (m : io A) (k : io B) ps qs :
  returns_calling m ps -> returns_calling k qs -> returns_calling (m ;; k) (ps ++ qs).
Proof.
  intros Hm Hk. apply (returns_bind m (fun _ => k) (fun _ => True)); [| auto].
  now apply returns_calling_with.
Qed.

Lemma raises_bind (m : io A) (k : A -> io B) (P : A -> Prop) e ps qs :
  returns_with m P ps -> (forall x, P x -> raises_calling (k x) e qs) ->
  raises_calling (m ≫= k) e (ps ++ qs).
Proof.
  intros Hm Hk w. destruct (Hm w) as (x & w1 & E1 & HP & Hc1).
  destruct (Hk x HP w1) as (w2 & E2 & Hc2).
  exists w2. unfold mbind, io_bind. rewrite E1, E2. split; [reflexivity |].
  now rewrite Hc2, Hc1, app_assoc.
Qed.

Lemma raises_first (m : io A) (k : A -> io B) e ps :
  raises_calling m e ps -> raises_calling (m ≫= k) e ps.
Proof.
  intros Hm w. destruct (Hm w) as (w1 & E1 & Hc1).
  exists w1. unfold mbind, io_bind. now rewrite E1.
Qed.

Lemma exits_bind (m : io A) (k : A -> io B) (P : A -> Prop) status ps qs :
  returns_with m P ps -> (forall x, P x -> exits_calling (k x) status qs) ->
  exits_calling (m ≫= k) status (ps ++ qs).
Proof.
  intros Hm Hk w. destruct (Hm w) as (x & w1 & E1 & HP & Hc1).
  destruct (Hk x HP w1) as (w2 & E2 & Hc2).
  exists w2. unfold mbind, io_bind. rewrite E1, E2. split; [reflexivity |].
  now rewrite Hc2, Hc1, app_assoc.
Qed.

Lemma exits_first (m : io A) (k : A -> io B) status ps :
  exits_calling m status ps -> exits_calling (m ≫= k) status ps.
Proof.
  intros Hm w. destruct (Hm w) as (w1 & E1 & Hc1).
  exists w1. unfold mbind, io_bind. now rewrite E1.
Qed.

End Effects.

Lemma returns_print (line : list piece) : returns_calling (print line) [].
Proof. intros w. eexists tt, _. split; [reflexivity |]. simpl. now rewrite app_nil_r. Qed.

Lemma returns_print_no_end (line : list piece) : returns_calling (print_no_end line) [].
Proof. intros w. eexists tt, _. split; [reflexivity |]. simpl. now rewrite app_nil_r. Qed.

Lemma exits_sys_exit {A} (status : Z) : exits_calling (sys_exit status : io A) status [].
Proof. intros w. exists w. split; [reflexivity | now rewrite app_nil_r]. Qed.

(** Statements that only print return and call nothing. *)
Ltac quiet :=
  repeat first
    [ apply returns_print
    | apply returns_print_no_end
    | apply returns_ret
    | apply (returns_seq _ _ [] [])
    | match goal with |- returns_calling (if ?b then _ else _) _ => destruct b end ].

Lemma truthy_get (d : gmap string json) (k : string) :
  py_bool (dict_get d k) = true ->
  exists v, d !! k = Some v /\ dict_get d k = v /\ py_item (JObj d) k = inr v.
Proof.
  unfold dict_get, py_item. destruct (d !! k) as [v|]; [eauto | discriminate].
Qed.

Lemma prints_print (line : list piece) : prints (print line) (line ++ [Lit nl]).
Proof. intros w. reflexivity. Qed.

Lemma prints_ret : prints (mret tt) [].
Proof. intros [out log]. unfold mret, io_ret. simpl. now rewrite app_nil_r. Qed.

Lemma prints_seq (m k : io unit) (a b : list piece) :
  prints m a -> prints k b -> prints (m ;; k) (a ++ b).
Proof.
  intros Hm Hk w. unfold mbind, io_bind. rewrite Hm, Hk. simpl. now rewrite app_assoc.
Qed.

Lemma prints_lift_exc (x : json) (k : json -> io unit) (out : list piece) :
  prints (k x) out -> prints (lift_exc (inr x) ≫= k) out.
Proof. intros H w. unfold mbind, io_bind, lift_exc. apply H. Qed.

Lemma prints_returns (m : io unit) (out : list piece) : prints m out -> returns_calling m [].
Proof.
  intros H w. eexists tt, _. split; [apply H |]. simpl. now rewrite app_nil_r.
Qed.

(** ** The Mistral script *)

(** X11.  [display_response] accepts any result dictionary: it never
    raises and makes no remote call.  It prints the response, on a line,
    when both "success" and "response" are true values; it prints nothing
    at all for a successful result whose response is empty; and for a
    result whose "success" is false or missing it prints one fixed error
    line, whatever the result says about the error. *)
Theorem display_response_prints (result : gmap string json) :
  prints (MistralScript.display_response result)
    (if py_bool (dict_get result "success")
     then if py_bool (dict_get result "response")
          then [Str (dict_get result "response"); Lit nl]
          else []
     else [Lit MistralScript.RED; Chr 10007; Lit MistralScript.NC; Lit " ";
           Lit "No response or error occurred"; Lit nl]).
Proof.
  unfold MistralScript.display_response.
  destruct (py_bool (dict_get result "success")); simpl andb; cbv iota.
  - destruct (py_bool (dict_get result "response")) eqn:Er.
    + destruct (truthy_get _ _ Er) as (v & _ & -> & ->).
      apply prints_lift_exc. apply (prints_print [Str v]).
    + simpl negb. cbv iota. apply prints_ret.
  - simpl negb. cbv iota. apply prints_print.
Qed.

Lemma display_response_returns (result : gmap string json) :
  returns_calling (MistralScript.display_response result) [].
Proof.
  unfold MistralScript.display_response.
  destruct (py_bool (dict_get result "success")); simpl andb; cbv iota.
  - destruct (py_bool (dict_get result "response")) eqn:Er; [| apply returns_ret].
    destruct (truthy_get _ _ Er) as (v & _ & _ & ->).
    eapply (returns_bind _ _ _ [] []); [apply returns_lift_exc | intros ? <-].
    apply returns_print.
  - simpl negb. cbv iota. apply returns_print.
Qed.

Lemma display_metadata_returns (self : Mistral.client) (result : gmap string json) :
  py_bool (dict_get result "success") = false \/ is_Some (result !! "model_id") ->
  returns_calling (MistralScript.display_metadata self result) [].
Proof.
  intros H. unfold MistralScript.display_metadata.
  destruct (py_bool (dict_get result "success")) eqn:Es; [| apply returns_ret].
  destruct H as [H | [model Hm]]; [discriminate |].
  apply (returns_seq _ _ [] []); [apply returns_print |].
  apply (returns_seq _ _ [] []); [apply returns_print |].
  apply (returns_seq _ _ [] []).
  - destruct (py_bool (dict_get result "stop_reason")) eqn:Esr; [| apply returns_ret].
    destruct (truthy_get _ _ Esr) as (v & _ & _ & ->).
    apply (returns_bind _ _ (eq v) [] []); [apply returns_lift_exc |].
    intros ? _. apply returns_print.
  - rewrite (py_item_obj _ _ _ Hm).
    apply (returns_bind _ _ (eq model) [] []); [apply returns_lift_exc |].
    intros ? _. apply (returns_seq _ _ [] []); apply returns_print.
Qed.

(** X12.  After any Mistral invocation [display_metadata] is safe: on a
    failure result (of the local check or of the error classifier) it
    prints nothing, and on every result the normaliser can build it
    returns without raising and without a remote call, because such a
    result always has its "model_id". *)
Theorem display_metadata_after_invocation (self : Mistral.client)
    (service : gmap string param -> exc json) (prompt : string) (max_tokens : json)
    (temperature top_p : Q) (log : list (gmap string param)) :
  let result :=
    fst (Mistral.invoke_model self service prompt max_tokens temperature top_p log) in
  returns_calling (MistralScript.display_metadata self result) [] /\
  (success_of result = Some false ->
     forall w, MistralScript.display_metadata self result w = (Returned tt, w)).
Proof.
  intros result.
  assert (result !! "success" = Some (JBool false) \/
          result !! "success" = Some (JBool true) /\ is_Some (result !! "model_id")) as H.
  { subst result.
    destruct (isinstance_int max_tokens) eqn:Hi;
      [destruct (Z.ltb_spec 0 (int_value max_tokens)) as [Hp | Hp] |].
    - rewrite validation_accepts by assumption. simpl fst.
      destruct (service _) as [e|body]; simpl.
      + left. unfold Mistral.handle_exception. now destruct (_ || _).
      + destruct (Mistral.normalize self body) as [e|r] eqn:E.
        * left. unfold Mistral.handle_exception. now destruct (_ || _).
        * right. apply mistral_normalize_shape in E as (m & text & _ & _ & ->).
          split; [reflexivity | eexists; reflexivity].
    - rewrite validation_rejects by (right; assumption). now left.
    - rewrite validation_rejects by (left; exact Hi). now left. }
  split.
  - apply display_metadata_returns. unfold dict_get.
    destruct H as [-> | [_ H]]; [now left | now right].
  - unfold success_of. intros Hs w. unfold MistralScript.display_metadata, dict_get.
    destruct (result !! "success") as [[| [|] | | | | |]|]; try discriminate. reflexivity.
Qed.

Lemma display_metadata_prints (self : Mistral.client) (result : gmap string json)
    (model : json) :
  py_bool (dict_get result "success") = true ->
  result !! "model_id" = Some model ->
  exists out,
    prints (MistralScript.display_metadata self result)
      (out ++ [Lit "  - Guardrail Applied: ";
               Lit (if py_bool (dict_get result "guardrail_applied")
                    then if truthy (Mistral.guardrail_id self)
                         then "Yes (" +:+ default "" (Mistral.guardrail_id self) +:+ ")"
                         else "Yes"
                    else "No");
               Lit nl]).
Proof.
  intros Hs Hm. unfold MistralScript.display_metadata. rewrite Hs, (py_item_obj _ _ _ Hm).
  exists ([Lit nl] ++ [Lit "Metadata:"; Lit nl] ++
          (if py_bool (dict_get result "stop_reason")
           then [Lit "  - Stop Reason: "; Str (dict_get result "stop_reason"); Lit nl]
           else []) ++
          [Lit "  - Model: "; Str model; Lit nl])%list.
  rewrite <- !app_assoc.
  apply prints_seq; [apply (prints_print []) |].
  apply prints_seq; [apply (prints_print [Lit "Metadata:"]) |].
  apply prints_seq.
  - destruct (py_bool (dict_get result "stop_reason")) eqn:Esr; [| apply prints_ret].
    destruct (truthy_get _ _ Esr) as (v & _ & -> & ->).
    apply prints_lift_exc. apply (prints_print [Lit "  - Stop Reason: "; Str v]).
  - apply prints_lift_exc.
    apply prints_seq; [apply (prints_print [Lit "  - Model: "; Str model]) |].
    destruct (py_bool (dict_get result "guardrail_applied")),
      (truthy (Mistral.guardrail_id self)); apply (prints_print [_; _]).
Qed.

(** X13.  On a result of the Mistral normaliser [display_metadata] ends
    with the line "  - Guardrail Applied: " and a status: "No" when the
    client has no guardrail identifier, "Yes (identifier)" when it has a
    non-empty one, and a bare "Yes" when the identifier is the empty
    string, for which no guardrail key was sent. *)
Theorem display_metadata_guardrail_status (self : Mistral.client) (body : json)
    (result : gmap string json) :
  Mistral.normalize self body = inr result ->
  exists out,
    prints (MistralScript.display_metadata self result)
      (out ++ [Lit "  - Guardrail Applied: ";
               Lit (match Mistral.guardrail_id self with
                    | None => "No"
                    | Some "" => "Yes"
                    | Some id => "Yes (" +:+ id +:+ ")"
                    end);
               Lit nl]).
Proof.
  intros H. apply mistral_normalize_shape in H as (m & text & _ & _ & Hr).
  assert (py_bool (dict_get result "success") = true) as Hs by now rewrite Hr.
  assert (result !! "model_id" = Some (JStr (Mistral.model_id self))) as Hm by now rewrite Hr.
  assert (dict_get result "guardrail_applied"
          = JBool (bool_decide (is_Some (Mistral.guardrail_id self)))) as Hg by now rewrite Hr.
  destruct (display_metadata_prints self result _ Hs Hm) as [out Hp].
  exists out. rewrite Hg in Hp.
  destruct (Mistral.guardrail_id self) as [[|c id]|]; exact Hp.
Qed.

Lemma display_metadata_guardrail_status_witness :
  let self := MistralScript.init "eu-west-1" (Some "") (Some "1") "mistral.test" in
  exists out,
    prints (MistralScript.display_metadata self
              (dict [("success", JBool true); ("response", JStr "Paris");
                     ("stop_reason", JNull); ("model_id", JStr "mistral.test");
                     ("guardrail_applied", JBool true);
                     ("raw_response", JObj (dict [("completion", JStr "Paris")]))]))
      (out ++ [Lit "  - Guardrail Applied: "; Lit "Yes"; Lit nl]).
Proof.
  intros self.
  apply (display_metadata_guardrail_status self (JObj (dict [("completion", JStr "Paris")]))).
  reflexivity.
Defined.

Lemma mistral_result_keys (self : Mistral.client) (service : gmap string param -> exc json)
    (prompt : string) (max_tokens : json) (temperature top_p : Q)
    (log : list (gmap string param)) :
  let result :=
    fst (Mistral.invoke_model self service prompt max_tokens temperature top_p log) in
  result !! "success" = Some (JBool false) \/
  result !! "success" = Some (JBool true) /\ is_Some (result !! "model_id").
Proof.
  intros result. subst result.
  destruct (isinstance_int max_tokens) eqn:Hi;
    [destruct (Z.ltb_spec 0 (int_value max_tokens)) as [Hp | Hp] |].
  - rewrite validation_accepts by assumption. simpl fst.
    destruct (service _) as [e|body]; simpl.
    + left. unfold Mistral.handle_exception. now destruct (_ || _).
    + destruct (Mistral.normalize self body) as [e|r] eqn:E.
      * left. unfold Mistral.handle_exception. now destruct (_ || _).
      * right. apply mistral_normalize_shape in E as (m & text & _ & _ & ->).
        split; [reflexivity | eexists; reflexivity].
  - rewrite validation_rejects by (right; assumption). now left.
  - rewrite validation_rejects by (left; exact Hi). now left.
Qed.

Ltac quiet_script :=
  unfold MistralScript.print_header, MistralScript.print_subheader,
    MistralScript.print_info, MistralScript.print_success,
    MistralScript.print_warning, MistralScript.print_error;
  quiet.

Lemma run_example_returns (client : Mistral.client) (service : gmap string param -> exc json)
    (prompt : string) (max_tokens : json) (temperature top_p : Q)
    (on_success on_failure : string) :
  isinstance_int max_tokens = true -> (0 < int_value max_tokens)%Z ->
  returns_calling
    (MistralScript.run_example client service prompt max_tokens temperature top_p
       on_success on_failure)
    [Mistral.api_params client prompt max_tokens temperature top_p].
Proof.
  intros Hi Hp. unfold MistralScript.run_example.
  apply (returns_bind _ _
           (fun r => r !! "success" = Some (JBool false) \/
                     r !! "success" = Some (JBool true) /\ is_Some (r !! "model_id"))
           [_] []).
  - apply returns_lift_remote. intros log. split.
    + apply mistral_result_keys.
    + now rewrite validation_accepts.
  - intros r [Hs | [Hs Hm]]; rewrite (py_item_obj _ _ _ Hs).
    + apply (returns_bind _ _ (eq (JBool false)) [] []); [apply returns_lift_exc |].
      intros ? <-. simpl py_bool. cbv iota. quiet_script.
    + apply (returns_bind _ _ (eq (JBool true)) [] []); [apply returns_lift_exc |].
      intros ? <-. simpl py_bool. cbv iota.
      apply (returns_seq _ _ [] []); [quiet_script |].
      apply (returns_seq _ _ [] []).
      * apply display_response_returns.
      * apply display_metadata_returns. now right.
Qed.

Ltac quiet_step := apply (returns_seq _ _ [] _); [quiet_script |].

(** X14.  When the credentials check fails (creating the STS client or
    [get_caller_identity] raises), the Mistral script's [main] leaves
    through [sys.exit(1)] without having made a single inference call,
    whatever the environment holds. *)
Theorem mistral_main_without_credentials (env : gmap string string)
    (sts : string -> exc json) (service : gmap string param -> exc json) (e : exception) :
  sts (default "eu-west-1" (env !! "AWS_REGION")) = inl e ->
  exits_calling (MistralScript.main env sts service) 1 [].
Proof.
  intros Hsts. unfold MistralScript.main, MistralScript.check_aws_credentials. cbv zeta.
  rewrite Hsts. simpl negb. cbv iota.
  do 5 (apply (exits_bind _ _ (fun _ => True) _ [] []);
        [apply returns_calling_with; quiet_script | intros _ _]).
  apply exits_first.
  apply (exits_bind _ _ (fun _ => True) _ [] []);
    [apply returns_calling_with; quiet_script | intros _ _].
  apply exits_sys_exit.
Qed.

Lemma mistral_main_without_credentials_witness :
  exits_calling
    (MistralScript.main ∅ (fun _ => inl "Unable to locate credentials") (fun _ => inl "unused"))
    1 [].
Proof.
  apply (mistral_main_without_credentials ∅ _ _ "Unable to locate credentials"). reflexivity.
Defined.

(** X15.  When the credentials check passes, the Mistral script's [main]
    runs to its end: it neither raises nor exits, whatever the service and
    the environment do, and it makes exactly four inference calls, in
    order, for its four prompts with max_tokens 1000, 1000, 1500 and 1000,
    each built for the client the environment configures (region
    "eu-west-1", version "1" and the Mistral Large 3 model by default). *)
Theorem mistral_main_with_credentials (env : gmap string string)
    (sts : string -> exc json) (service : gmap string param -> exc json) (identity : json) :
  sts (default "eu-west-1" (env !! "AWS_REGION")) = inr identity ->
  let client :=
    MistralScript.init
      (default "eu-west-1" (env !! "AWS_REGION"))
      (env !! "GUARDRAIL_ID")
      (Some (default "1" (env !! "GUARDRAIL_VERSION")))
      (default "mistral.mistral-large-3-675b-instruct" (env !! "MODEL_ID")) in
  returns_calling (MistralScript.main env sts service)
    [Mistral.api_params client MistralScript.prompt1 (JInt 1000) 0.7 0.9;
     Mistral.api_params client MistralScript.prompt2 (JInt 1000) 0.7 0.9;
     Mistral.api_params client MistralScript.prompt3 (JInt 1500) 0.8 0.95;
     Mistral.api_params client MistralScript.prompt4 (JInt 1000) 0.5 0.9].
Proof.
  intros Hsts client. unfold MistralScript.main, MistralScript.check_aws_credentials.
  cbv zeta. rewrite Hsts. simpl negb. cbv iota. fold client.
  do 10 quiet_step.
  apply (returns_seq _ _ [_] _); [apply run_example_returns; [reflexivity | simpl; lia] |].
  do 3 quiet_step.
  apply (returns_seq _ _ [_] _); [apply run_example_returns; [reflexivity | simpl; lia] |].
  do 3 quiet_step.
  apply (returns_seq _ _ [_] _); [apply run_example_returns; [reflexivity | simpl; lia] |].
  do 3 quiet_step.
  apply (returns_seq _ _ [_] []); [apply run_example_returns; [reflexivity | simpl; lia] |].
  quiet_script.
Qed.

Lemma mistral_main_with_credentials_witness :
  let env : gmap string string := {["GUARDRAIL_ID" := "gr-env"]} in
  let client :=
    MistralScript.init "eu-west-1" (Some "gr-env") (Some "1")
      "mistral.mistral-large-3-675b-instruct" in
  returns_calling
    (MistralScript.main env (fun _ => inr (JObj ∅)) (fun _ => inl "ThrottlingException"))
    [Mistral.api_params client MistralScript.prompt1 (JInt 1000) 0.7 0.9;
     Mistral.api_params client MistralScript.prompt2 (JInt 1000) 0.7 0.9;
     Mistral.api_params client MistralScript.prompt3 (JInt 1500) 0.8 0.95;
     Mistral.api_params client MistralScript.prompt4 (JInt 1000) 0.5 0.9].
Proof.
  intros env client.
  apply (mistral_main_with_credentials env (fun _ => inr (JObj ∅))
           (fun _ => inl "ThrottlingException") (JObj ∅)).
  reflexivity.
Defined.

(** ** The Anthropic script *)

Ltac branch_on_flag :=
  try change (py_bool (JBool true)) with true;
  try change (py_bool (JBool false)) with false;
  cbv iota.

Ltac read_item H :=
  rewrite (py_item_obj _ _ _ H);
  eapply (returns_bind _ _ _ [] []); [apply returns_lift_exc | intros ? <-].

Ltac read_item_raising H :=
  rewrite (py_item_obj _ _ _ H);
  eapply (raises_bind _ _ _ _ [] []); [apply returns_lift_exc | intros ? <-].

Lemma bedrock_result_shape (self : Bedrock.client) (service : gmap string param -> exc json)
    (prompt : string) (max_tokens : json) (temperature top_p : Q)
    (log : list (gmap string param)) :
  let result :=
    fst (Bedrock.invoke_model self service prompt max_tokens temperature top_p log) in
  (result !! "success" = Some (JBool false) /\
   (exists message, result !! "message" = Some message) /\
   result !! "usage" = None) \/
  (result !! "success" = Some (JBool true) /\
   (exists text, result !! "response" = Some text) /\
   (exists stop_reason, result !! "stop_reason" = Some stop_reason) /\
   (exists applied, result !! "guardrail_applied" = Some applied) /\
   (exists usage, result !! "usage" = Some usage)).
Proof.
  intros result. subst result. rewrite bedrock_invoke_model_result.
  destruct (service _ ≫= Bedrock.normalize self) as [e|r] eqn:E.
  - left. unfold Bedrock.handle_exception. destruct (_ || _); repeat split; eexists; reflexivity.
  - right. destruct (service _) as [e|body]; [discriminate |]. rewrite exc_bind_inr in E.
    apply bedrock_normalize_shape in E as (m & o & _ & _ & ->).
    repeat split; eexists; reflexivity.
Qed.

Lemma bedrock_result_any_log (self : Bedrock.client) (service : gmap string param -> exc json)
    (prompt : string) (max_tokens : json) (temperature top_p : Q)
    (log : list (gmap string param)) :
  fst (Bedrock.invoke_model self service prompt max_tokens temperature top_p log) =
  fst (Bedrock.invoke_model self service prompt max_tokens temperature top_p []).
Proof. reflexivity. Qed.

Lemma bedrock_invoke_in_script (self : Bedrock.client)
    (service : gmap string param -> exc json) (prompt : string) (max_tokens : json)
    (temperature top_p : Q) :
  returns_with
    (lift_remote (Bedrock.invoke_model self service prompt max_tokens temperature top_p))
    (eq (fst (Bedrock.invoke_model self service prompt max_tokens temperature top_p [])))
    [Bedrock.api_params self prompt max_tokens temperature top_p].
Proof. apply returns_lift_remote. intros log. split; reflexivity. Qed.

Lemma example1_returns (client : Bedrock.client) (service : gmap string param -> exc json) :
  let result1 :=
    fst (Bedrock.invoke_model client service BedrockScript.prompt1 (JInt 2000) 0.7 0.9 []) in
  py_bool (dict_get result1 "usage") = false \/
    (exists m, result1 !! "usage" = Some (JObj m)) ->
  returns_calling (BedrockScript.example1 client service)
    [Bedrock.api_params client BedrockScript.prompt1 (JInt 2000) 0.7 0.9].
Proof.
  cbv zeta. intros Hu. unfold BedrockScript.example1.
  apply (returns_bind _ _ _ [_] [] (bedrock_invoke_in_script _ _ _ _ _ _)).
  intros ? <-.
  pose proof (bedrock_result_shape client service BedrockScript.prompt1 (JInt 2000)
                0.7 0.9 []) as Sh. cbv zeta in Sh.
  destruct Sh
    as [(Hs & [message Hm] & _) | (Hs & [text Ht] & [sr Hsr] & [applied Ha] & [usage Hus])].
  - read_item Hs. branch_on_flag. read_item Hm. apply returns_print.
  - read_item Hs. branch_on_flag.
    read_item Ht. apply (returns_seq _ _ [] []); [apply returns_print |].
    apply (returns_seq _ _ [] []); [apply returns_print |].
    read_item Hsr. apply (returns_seq _ _ [] []); [apply returns_print |].
    read_item Ha. apply (returns_seq _ _ [] []); [apply returns_print |].
    destruct (py_bool (dict_get _ "usage")) eqn:Eu; [| apply returns_ret].
    destruct Hu as [Hu | [m Hu]]; [discriminate |].
    read_item Hu. rewrite (py_get_obj m "input_tokens").
    eapply (returns_bind _ _ _ [] []); [apply returns_lift_exc | intros ? <-].
    apply (returns_seq _ _ [] []); [apply returns_print |].
    eapply (returns_bind _ _ _ [] []); [apply returns_lift_exc | intros ? <-].
    rewrite (py_get_obj m "output_tokens").
    eapply (returns_bind _ _ _ [] []); [apply returns_lift_exc | intros ? <-].
    apply returns_print.
Qed.

Lemma example1_raises (client : Bedrock.client) (service : gmap string param -> exc json)
    (usage : json) :
  let result1 :=
    fst (Bedrock.invoke_model client service BedrockScript.prompt1 (JInt 2000) 0.7 0.9 []) in
  result1 !! "usage" = Some usage -> py_bool usage = true -> (forall m, usage <> JObj m) ->
  raises_calling (BedrockScript.example1 client service) (no_attribute usage "get")
    [Bedrock.api_params client BedrockScript.prompt1 (JInt 2000) 0.7 0.9].
Proof.
  cbv zeta. intros Hu Ht Hno. unfold BedrockScript.example1.
  apply (raises_bind _ _ _ _ [_] [] (bedrock_invoke_in_script _ _ _ _ _ _)).
  intros ? <-.
  pose proof (bedrock_result_shape client service BedrockScript.prompt1 (JInt 2000)
                0.7 0.9 []) as Sh. cbv zeta in Sh.
  destruct Sh as [(_ & _ & Hnone) | (Hs & [text Htx] & [sr Hsr] & [applied Ha] & _)];
    [congruence |].
  read_item_raising Hs. branch_on_flag.
  read_item_raising Htx.
  eapply (raises_bind _ _ _ _ [] []); [apply returns_calling_with, returns_print | intros _ _].
  eapply (raises_bind _ _ _ _ [] []); [apply returns_calling_with, returns_print | intros _ _].
  read_item_raising Hsr.
  eapply (raises_bind _ _ _ _ [] []); [apply returns_calling_with, returns_print | intros _ _].
  read_item_raising Ha.
  eapply (raises_bind _ _ _ _ [] []); [apply returns_calling_with, returns_print | intros _ _].
  unfold dict_get. rewrite Hu. simpl default. rewrite Ht.
  read_item_raising Hu.
  apply raises_first.
  replace (py_get usage "input_tokens" JNull) with (inl (no_attribute usage "get") : exc json).
  - apply raises_lift_exc.
  - destruct usage; try reflexivity. now destruct (Hno m).
Qed.

Lemma example2_returns (client : Bedrock.client) (service : gmap string param -> exc json) :
  returns_calling (BedrockScript.example2 client service)
    [Bedrock.api_params client BedrockScript.prompt2 (JInt 2000) 0.7 0.9].
Proof.
  unfold BedrockScript.example2.
  apply (returns_bind _ _ _ [_] [] (bedrock_invoke_in_script _ _ _ _ _ _)).
  intros ? <-.
  pose proof (bedrock_result_shape client service BedrockScript.prompt2 (JInt 2000)
                0.7 0.9 []) as Sh. cbv zeta in Sh.
  destruct Sh as [(Hs & [message Hm] & _) | (Hs & [text Ht] & _)].
  - read_item Hs. branch_on_flag. read_item Hm.
    apply (returns_seq _ _ [] []); [apply returns_print |].
    destruct (py_bool (dict_get _ "details")) eqn:Ed; [| apply returns_ret].
    destruct (truthy_get _ _ Ed) as (v & Hv & _ & _).
    read_item Hv. apply returns_print.
  - read_item Hs. branch_on_flag. read_item Ht. apply returns_print.
Qed.

Lemma print_chunks_returns (chunks : list json) :
  returns_calling (BedrockScript.print_chunks chunks) [].
Proof.
  induction chunks as [|chunk rest IH]; [apply returns_ret |].
  apply (returns_seq _ _ [] []); [apply returns_print_no_end | exact IH].
Qed.

Lemma example3_returns (client : Bedrock.client)
    (stream_service : gmap string param -> exc (list (exc json))) :
  returns_calling (BedrockScript.example3 client stream_service)
    [Bedrock.api_params client BedrockScript.prompt3 (JInt 2000) 0.7 0.9].
Proof.
  unfold BedrockScript.example3.
  apply (returns_bind _ _ (fun _ => True) [_] []).
  - apply returns_lift_remote. intros log. split; [exact I | reflexivity].
  - intros chunks _. apply print_chunks_returns.
Qed.

Ltac quiet_print := apply (returns_seq _ _ [] _); [quiet |].

Ltac quiet_print_raising :=
  eapply (raises_bind _ _ _ _ [] _); [apply returns_calling_with; quiet | intros _ _].

(** X17.  The Anthropic script's [main] makes three remote calls, in
    order: two [invoke_model] calls and one streaming call, for its three
    prompts, each with max_tokens 2000, temperature 0.7 and top_p 0.9 and
    built for the client the environment configures.  It runs to its end
    whatever the service does, with one exception: when the first result
    carries a "usage" that is a true value but not an object (a non-empty
    list or string, a non-zero number), reading its token counts raises an
    AttributeError that nothing catches, after the first call only. *)
Theorem bedrock_main_calls (env : gmap string string)
    (service : gmap string param -> exc json)
    (stream_service : gmap string param -> exc (list (exc json))) :
  let client := Bedrock.init env "eu-west-1" None None None in
  let call := fun prompt => Bedrock.api_params client prompt (JInt 2000) 0.7 0.9 in
  let result1 :=
    fst (Bedrock.invoke_model client service BedrockScript.prompt1 (JInt 2000) 0.7 0.9 []) in
  (py_bool (dict_get result1 "usage") = false \/
     (exists m, result1 !! "usage" = Some (JObj m)) ->
   returns_calling (BedrockScript.main env service stream_service)
     [call BedrockScript.prompt1; call BedrockScript.prompt2; call BedrockScript.prompt3]) /\
  (forall usage,
     result1 !! "usage" = Some usage -> py_bool usage = true ->
     (forall m, usage <> JObj m) ->
     raises_calling (BedrockScript.main env service stream_service)
       (no_attribute usage "get") [call BedrockScript.prompt1]).
Proof.
  intros client call result1. subst call result1. split.
  - intros Hu. unfold BedrockScript.main. cbv zeta. fold client.
    do 12 quiet_print.
    apply (returns_seq _ _ [_] _); [now apply example1_returns |].
    do 6 quiet_print.
    apply (returns_seq _ _ [_] _); [apply example2_returns |].
    do 7 quiet_print.
    apply (returns_seq _ _ [_] []); [apply example3_returns |].
    quiet.
  - intros usage Hu Ht Hno. unfold BedrockScript.main. cbv zeta. fold client.
    do 12 quiet_print_raising.
    apply raises_first. now apply example1_raises.
Qed.

Lemma bedrock_main_calls_witness :
  let client := Bedrock.init ∅ "eu-west-1" None None None in
  let call := fun prompt => Bedrock.api_params client prompt (JInt 2000) 0.7 0.9 in
  let answer := fun usage (_ : gmap string param) =>
    inr (A := string)
      (JObj (dict [("content", JList [JObj (dict [("text", JStr "Paris.")])]);
                   ("usage", usage)])) in
  let tokens := JObj (dict [("input_tokens", JInt 14); ("output_tokens", JInt 3)]) in
  returns_calling (BedrockScript.main ∅ (answer tokens) (fun _ => inr []))
    [call BedrockScript.prompt1; call BedrockScript.prompt2; call BedrockScript.prompt3] /\
  raises_calling (BedrockScript.main ∅ (answer (JList [JInt 14; JInt 3])) (fun _ => inr []))
    "'list' object has no attribute 'get'" [call BedrockScript.prompt1].
Proof.
  intros client call answer tokens. split.
  - apply (proj1 (bedrock_main_calls ∅ (answer tokens) (fun _ => inr []))).
    right. eexists. reflexivity.
  - apply (proj2 (bedrock_main_calls ∅ (answer (JList [JInt 14; JInt 3])) (fun _ => inr []))
             (JList [JInt 14; JInt 3])); [reflexivity | reflexivity | discriminate].
Defined.

Lemma print_chunks_prints (chunks : list json) :
  prints (BedrockScript.print_chunks chunks) (map Str chunks).
Proof.
  induction chunks as [|chunk rest IH]; [apply prints_ret |].
  apply (prints_seq _ _ [Str chunk] _); [| exact IH]. intros w. reflexivity.
Qed.

(** X18.  The third example of the Anthropic script writes the values the
    streaming relay produces back to back, in order, with nothing between
    them and nothing after the last one (a closing marker included, when
    the stream faulted), and makes the one streaming call. *)
Theorem example3_echoes_stream (client : Bedrock.client)
    (stream_service : gmap string param -> exc (list (exc json))) (w : world) :
  BedrockScript.example3 client stream_service w =
  (Returned tt,
   {| stdout := stdout w ++
        map Str (fst (Bedrock.invoke_model_streaming client stream_service
                        BedrockScript.prompt3 (JInt 2000) 0.7 0.9 (calls w)));
      calls := calls w ++
        [Bedrock.api_params client BedrockScript.prompt3 (JInt 2000) 0.7 0.9] |}).
Proof.
  unfold BedrockScript.example3, mbind at 1, io_bind, lift_remote.
  destruct (Bedrock.invoke_model_streaming _ _ _ _ _ _ (calls w)) as [chunks log] eqn:E.
  assert (log = (calls w ++
            [Bedrock.api_params client BedrockScript.prompt3 (JInt 2000) 0.7 0.9])%list) as ->.
  { change log with (snd (chunks, log)). rewrite <- E. reflexivity. }
  rewrite print_chunks_prints. reflexivity.
Qed.

(** X16.  The client the Mistral script's [main] builds takes its guardrail
    from the environment: with a non-empty GUARDRAIL_ID every request
    carries that identifier, together with the version "1" when
    GUARDRAIL_VERSION is unset, with the given version when it is set and
    non-empty, and with no version at all when it is set to the empty
    string; with GUARDRAIL_ID unset or empty no request carries a
    guardrail key. *)
Theorem mistral_main_guardrail_configuration (env : gmap string string)
    (prompt : string) (max_tokens : json) (temperature top_p : Q) :
  let client :=
    MistralScript.init
      (default "eu-west-1" (env !! "AWS_REGION"))
      (env !! "GUARDRAIL_ID")
      (Some (default "1" (env !! "GUARDRAIL_VERSION")))
      (default "mistral.mistral-large-3-675b-instruct" (env !! "MODEL_ID")) in
  let api_params := Mistral.api_params client prompt max_tokens temperature top_p in
  (forall id, env !! "GUARDRAIL_ID" = Some id -> id <> "" ->
     api_params !! "guardrailIdentifier" = Some (PStr id) /\
     api_params !! "guardrailVersion" =
       match env !! "GUARDRAIL_VERSION" with
       | None => Some (PStr "1")
       | Some "" => None
       | Some version => Some (PStr version)
       end) /\
  (env !! "GUARDRAIL_ID" = None \/ env !! "GUARDRAIL_ID" = Some "" ->
     api_params !! "guardrailIdentifier" = None /\
     api_params !! "guardrailVersion" = None).
Proof.
  intros client api_params.
  destruct (mistral_guardrail_keys prompt max_tokens temperature top_p client) as [H1 H2].
  fold api_params in H1, H2. subst client. simpl in H1, H2. split.
  - intros id Hid Hne. rewrite Hid in H1, H2.
    destruct id as [|c id]; [congruence |]. simpl in H1, H2. split; [exact H1 |].
    rewrite H2. now destruct (env !! "GUARDRAIL_VERSION") as [[|c' v]|].
  - intros [Hid | Hid]; rewrite Hid in H1, H2; split; assumption.
Qed.

Lemma mistral_main_guardrail_configuration_witness :
  let env : gmap string string := {["GUARDRAIL_ID" := "gr-env"]} in
  let client :=
    MistralScript.init "eu-west-1" (Some "gr-env") (Some "1")
      "mistral.mistral-large-3-675b-instruct" in
  (Mistral.api_params client "Hi" (JInt 1000) 0.7 0.9 !! "guardrailIdentifier"
     = Some (PStr "gr-env") /\
   Mistral.api_params client "Hi" (JInt 1000) 0.7 0.9 !! "guardrailVersion"
     = Some (PStr "1")) /\
  Mistral.api_params (MistralScript.init "eu-west-1" None (Some "1")
                        "mistral.mistral-large-3-675b-instruct")
    "Hi" (JInt 1000) 0.7 0.9 !! "guardrailIdentifier" = None.
Proof.
  intros env client. split.
  - apply (proj1 (mistral_main_guardrail_configuration env "Hi" (JInt 1000) 0.7 0.9) "gr-env");
      [reflexivity | discriminate].
  - destruct (proj2 (mistral_main_guardrail_configuration ∅ "Hi" (JInt 1000) 0.7 0.9))
      as [H _]; [left; reflexivity | exact H].
Defined.
